(** * Availability-zone health check: the classifier and its handler

    A shallow embedding of [lambda_function.py].  Python values are
    embedded as a small dynamically-typed universe [pyval]; code that can
    raise returns a [result]; the handler, which logs, rebinds the global
    EC2 client and calls AWS, threads an explicit [world]. *)

From Stdlib Require Import List String Ascii ZArith Bool Lia Permutation.
From Stdlib Require Import DecimalString.
Import ListNotations.
Open Scope list_scope.
Open Scope string_scope.

Set Warnings "-register-all".

(** ** Python values *)

(** The values that flow through the program: JSON-like data plus the
    [datetime] objects boto3 puts in health events.  A dict keeps its
    insertion order and has string keys; a [datetime] is represented by the
    text its [isoformat()] method returns, the only thing the program asks
    of it. *)
Inductive pyval : Type :=
| PNone
| PBool (b : bool)
| PInt (z : Z)
| PStr (s : string)
| PDatetime (iso : string)
| PList (l : list pyval)
| PDict (d : list (string * pyval)).

(** The exception classes the program can meet. *)
Inductive pyexn : Type :=
| ClientError (code : string)
| AttributeError
| TypeError
| KeyError
| IndexError.

Inductive result (A : Type) : Type :=
| Ok (a : A)
| Raise (e : pyexn).

Arguments Ok {A} a.
Arguments Raise {A} e.

Definition bind {A B : Type} (r : result A) (k : A -> result B) : result B :=
  match r with
  | Ok a => k a
  | Raise e => Raise e
  end.

Notation "x <- r ;; k" := (bind r (fun x => k))
  (at level 61, r at next level, right associativity).

(** [for x in l: st = body(st, x)], stopping at the first exception. *)
Fixpoint for_each {S A : Type} (body : S -> A -> result S) (l : list A) (st : S)
  : result S :=
  match l with
  | [] => Ok st
  | x :: l' => st' <- body st x ;; for_each body l' st'
  end.

(** Truth value of an object, as [if v:] and [not v] see it. *)
Definition truthy (v : pyval) : bool :=
  match v with
  | PNone => false
  | PBool b => b
  | PInt z => negb (Z.eqb z 0)
  | PStr s => negb (String.eqb s "")
  | PDatetime _ => true
  | PList l => match l with [] => false | _ => true end
  | PDict d => match d with [] => false | _ => true end
  end.

Fixpoint dict_lookup (d : list (string * pyval)) (k : string) : option pyval :=
  match d with
  | [] => None
  | (k', v) :: d' => if String.eqb k' k then Some v else dict_lookup d' k
  end.

(** [v.get(k, default)]: only dicts have the method. *)
Definition py_get (v : pyval) (k : string) (default : pyval) : result pyval :=
  match v with
  | PDict d => Ok (match dict_lookup d k with Some x => x | None => default end)
  | _ => Raise AttributeError
  end.

(** [v[k]] for a string key. *)
Definition py_getitem (v : pyval) (k : string) : result pyval :=
  match v with
  | PDict d => match dict_lookup d k with Some x => Ok x | None => Raise KeyError end
  | _ => Raise TypeError
  end.

Fixpoint chars (s : string) : list pyval :=
  match s with
  | EmptyString => []
  | String c s' => PStr (String c EmptyString) :: chars s'
  end.

(** The items a [for] loop (or [list.extend]) draws from an object. *)
Definition py_iter (v : pyval) : result (list pyval) :=
  match v with
  | PList l => Ok l
  | PStr s => Ok (chars s)
  | PDict d => Ok (map (fun kv => PStr (fst kv)) d)
  | _ => Raise TypeError
  end.

(** [v == s] for a string literal [s]. *)
Definition py_eq_str (v : pyval) (s : string) : bool :=
  match v with
  | PStr s' => String.eqb s' s
  | _ => false
  end.

(** [v in [s1, s2, ...]] for a list of string literals. *)
Definition py_in_strs (v : pyval) (l : list string) : bool :=
  existsb (py_eq_str v) l.

(** [v.isoformat()]. *)
Definition py_isoformat (v : pyval) : result pyval :=
  match v with
  | PDatetime iso => Ok (PStr iso)
  | _ => Raise AttributeError
  end.

Definition str_of_Z (z : Z) : string := NilZero.string_of_int (Z.to_int z).

Definition str_of_nat (n : nat) : string := str_of_Z (Z.of_nat n).

(** [v[0]]. *)
Definition py_first (v : pyval) : result pyval :=
  match v with
  | PList (x :: _) => Ok x
  | PList [] => Raise IndexError
  | PStr (String c _) => Ok (PStr (String c EmptyString))
  | PStr EmptyString => Raise IndexError
  | PDict _ => Raise KeyError
  | _ => Raise TypeError
  end.

Fixpoint string_drop_last (s : string) : string :=
  match s with
  | EmptyString => EmptyString
  | String c s' =>
      match s' with
      | EmptyString => EmptyString
      | String _ _ => String c (string_drop_last s')
      end
  end.

(** [v[:-1]]: strings and lists can be sliced; any other object raises
    (a [TypeError] here; the handler only distinguishes [ClientError] from
    the rest). *)
Definition py_drop_last (v : pyval) : result pyval :=
  match v with
  | PStr s => Ok (PStr (string_drop_last s))
  | PList l => Ok (PList (removelast l))
  | _ => Raise TypeError
  end.

(** ** Severity *)

(** The local variable [severity] only ever holds one of three literals. *)
Inductive severity : Type := Healthy | Warning | Critical.

Definition severity_str (s : severity) : string :=
  match s with
  | Healthy => "healthy"
  | Warning => "warning"
  | Critical => "critical"
  end.

Definition severity_eqb (a b : severity) : bool :=
  match a, b with
  | Healthy, Healthy | Warning, Warning | Critical, Critical => true
  | _, _ => false
  end.

(** The ordering healthy < warning < critical. *)
Definition severity_rank (s : severity) : nat :=
  match s with
  | Healthy => 0
  | Warning => 1
  | Critical => 2
  end.

Definition severity_le (a b : severity) : Prop :=
  severity_rank a <= severity_rank b.

(** The locals of [analyze_health_status]. *)
Record cstate : Type := mk_cstate {
  issues : list string;
  sev : severity;
  critical_events : list pyval;
  warning_events : list pyval
}.

Definition initial_cstate : cstate := mk_cstate [] Healthy [] [].

Definition strs (l : list string) : pyval := PList (map PStr l).

Section Program.

(** [str(v)] for the values whose rendering is not spelled out below
    (containers and datetimes), as the interpreter computes it. *)
Variable py_str_other : pyval -> string.

(** [{v}] inside an f-string. *)
Definition py_format (v : pyval) : string :=
  match v with
  | PStr s => s
  | PNone => "None"
  | PBool true => "True"
  | PBool false => "False"
  | PInt z => str_of_Z z
  | _ => py_str_other v
  end.

(** ** analyze_health_status *)

(** The verdict of the existence gate. *)
Definition not_found_verdict : pyval :=
  PDict [("status", PStr "error");
         ("severity", PStr "critical");
         ("message", PStr "Availability Zone does not exist");
         ("issues", PList [PStr "AZ not found"]);
         ("health_events", PList [])].

(** Check AZ state. *)
Definition rule_state (az_info : pyval) (st : cstate) : result cstate :=
  state <- py_get az_info "state" PNone ;;
  if negb (py_eq_str state "available") then
    state' <- py_get az_info "state" PNone ;;
    Ok (mk_cstate
          (issues st ++ ["AZ state is " ++ py_format state' ++ " (expected: available)"])
          Critical
          (critical_events st) (warning_events st))
  else Ok st.

(** Check for AZ-specific messages. *)
Definition rule_messages (az_info : pyval) (st : cstate) : result cstate :=
  messages <- py_get az_info "messages" PNone ;;
  if truthy messages then
    messages' <- py_getitem az_info "messages" ;;
    msgs <- py_iter messages' ;;
    Ok (mk_cstate
          (issues st ++ map (fun msg => "AZ message: " ++ py_format msg) msgs)
          (if severity_eqb (sev st) Healthy then Warning else sev st)
          (critical_events st) (warning_events st))
  else Ok st.

(** [event.get(k).isoformat() if event.get(k) else None]. *)
Definition iso_or_none (event : pyval) (k : string) : result pyval :=
  t <- py_get event k PNone ;;
  if truthy t then
    t' <- py_get event k PNone ;;
    py_isoformat t'
  else Ok PNone.

(** The summary of one event kept in a bucket. *)
Definition event_info (event : pyval) : result pyval :=
  event_type_category <- py_get event "eventTypeCategory" (PStr "") ;;
  arn <- py_get event "arn" PNone ;;
  service <- py_get event "service" PNone ;;
  event_type_code <- py_get event "eventTypeCode" PNone ;;
  status <- py_get event "statusCode" PNone ;;
  start_time <- iso_or_none event "startTime" ;;
  end_time <- iso_or_none event "endTime" ;;
  last_updated <- iso_or_none event "lastUpdatedTime" ;;
  Ok (PDict [("arn", arn);
             ("service", service);
             ("event_type_code", event_type_code);
             ("event_type_category", event_type_category);
             ("status", status);
             ("start_time", start_time);
             ("end_time", end_time);
             ("last_updated", last_updated)]).

(** The test that sends an event to the critical bucket. *)
Definition is_critical_category (event_type_category : pyval) : bool :=
  py_in_strs event_type_category ["issue"; "accountNotification"].

Definition critical_issue (event : pyval) : result string :=
  code <- py_get event "eventTypeCode" PNone ;;
  service <- py_get event "service" PNone ;;
  Ok ("Critical event: " ++ py_format code ++ " - " ++ py_format service).

(** One iteration of the loop over [health_events]. *)
Definition classify_event (st : cstate) (event : pyval) : result cstate :=
  event_type_category <- py_get event "eventTypeCategory" (PStr "") ;;
  info <- event_info event ;;
  if is_critical_category event_type_category then
    issue <- critical_issue event ;;
    Ok (mk_cstate
          (issues st ++ [issue])
          (if negb (severity_eqb (sev st) Critical) then Critical else sev st)
          (critical_events st ++ [info])
          (warning_events st))
  else
    Ok (mk_cstate
          (issues st)
          (if severity_eqb (sev st) Healthy then Warning else sev st)
          (critical_events st)
          (warning_events st ++ [info])).

(** Analyze health events. *)
Definition rule_events (health_events : pyval) (st : cstate) : result cstate :=
  events <- py_iter health_events ;;
  for_each classify_event events st.

(** Determine overall status. *)
Definition status_of_severity (s : severity) : string :=
  if severity_eqb s Critical then "unhealthy"
  else if severity_eqb s Warning then "degraded"
  else "healthy".

Definition verdict (az_info : pyval) (st : cstate) : pyval :=
  let status := status_of_severity (sev st) in
  PDict [("status", PStr status);
         ("severity", PStr (severity_str (sev st)));
         ("message", PStr ("AZ is " ++ status));
         ("issues", strs (issues st));
         ("critical_events", PList (critical_events st));
         ("warning_events", PList (warning_events st));
         ("az_info", az_info)].

Definition analyze_health_status (az_info health_events : pyval) : result pyval :=
  ex <- py_get az_info "exists" PNone ;;
  if negb (truthy ex) then Ok not_found_verdict
  else
    st1 <- rule_state az_info initial_cstate ;;
    st2 <- rule_messages az_info st1 ;;
    st3 <- rule_events health_events st2 ;;
    Ok (verdict az_info st3).

(** ** Auxiliary notions used to state the properties *)

(** What one pass of the loop body does with an event, independently of
    the state it is run in: the summary, and the issue text when the event
    is critical. *)
Definition tag_event (event : pyval) : result (option string * pyval) :=
  event_type_category <- py_get event "eventTypeCategory" (PStr "") ;;
  info <- event_info event ;;
  if is_critical_category event_type_category then
    issue <- critical_issue event ;;
    Ok (Some issue, info)
  else Ok (None, info).

Definition apply_tag (st : cstate) (t : option string * pyval) : cstate :=
  match fst t with
  | Some issue =>
      mk_cstate (issues st ++ [issue])
                (if negb (severity_eqb (sev st) Critical) then Critical else sev st)
                (critical_events st ++ [snd t])
                (warning_events st)
  | None =>
      mk_cstate (issues st)
                (if severity_eqb (sev st) Healthy then Warning else sev st)
                (critical_events st)
                (warning_events st ++ [snd t])
  end.

(** The severity part of [apply_tag]. *)
Definition sev_step (s : severity) (t : option string * pyval) : severity :=
  sev (apply_tag (mk_cstate [] s [] []) t).

Fixpoint map_result {A B : Type} (f : A -> result B) (l : list A) : result (list B) :=
  match l with
  | [] => Ok []
  | x :: l' => y <- f x ;; ys <- map_result f l' ;; Ok (y :: ys)
  end.

Definition is_critical_tag (t : option string * pyval) : bool :=
  match fst t with Some _ => true | None => false end.

Definition critical_infos (tags : list (option string * pyval)) : list pyval :=
  map snd (filter is_critical_tag tags).

Definition warning_infos (tags : list (option string * pyval)) : list pyval :=
  map snd (filter (fun t => negb (is_critical_tag t)) tags).

(** Inputs on which no operation of the classifier raises. *)
Definition is_datetime (v : pyval) : bool :=
  match v with PDatetime _ => true | _ => false end.

Definition is_iterable (v : pyval) : bool :=
  match v with PList _ | PStr _ | PDict _ => true | _ => false end.

Definition timestamp_ok (d : list (string * pyval)) (k : string) : bool :=
  match dict_lookup d k with
  | Some t => negb (truthy t) || is_datetime t
  | None => true
  end.

Definition event_ok (event : pyval) : bool :=
  match event with
  | PDict d =>
      timestamp_ok d "startTime" && timestamp_ok d "endTime"
      && timestamp_ok d "lastUpdatedTime"
  | _ => false
  end.

Definition events_ok (health_events : pyval) : bool :=
  match py_iter health_events with
  | Ok events => forallb event_ok events
  | Raise _ => false
  end.

Definition az_info_ok (az_info : pyval) : bool :=
  match az_info with
  | PDict d =>
      match dict_lookup d "messages" with
      | Some m => negb (truthy m) || is_iterable m
      | None => true
      end
  | _ => false
  end.

(** ** The world of the handler *)

(** What the handler does to the outside: log records, AWS requests, the
    rebinding of the global EC2 client, and the calls to the three
    module-level functions. *)
Inductive call : Type :=
| LogInfo (msg : string)
| LogWarning (msg : string)
| LogError (msg : string)
| Boto3ClientEc2 (region : pyval)
| DescribeAvailabilityZones (client_region : string) (zone : pyval)
| DescribeEvents (region zone : pyval)
| CallCheckAzStatus (zone : pyval)
| CallGetAzHealthEvents (region zone : pyval)
| CallAnalyzeHealthStatus (az_info health_events : pyval).

(** The region the global [ec2_client] is bound to, and the calls made so
    far, oldest first. *)
Record world : Type := mk_world {
  ec2_region : string;
  calls : list call
}.

Definition M (A : Type) : Type := world -> result A * world.

Definition mret {A : Type} (a : A) : M A := fun w => (Ok a, w).

Definition mbind {A B : Type} (m : M A) (k : A -> M B) : M B :=
  fun w =>
    match m w with
    | (Ok a, w') => k a w'
    | (Raise e, w') => (Raise e, w')
    end.

Notation "x <~ m ;; k" := (mbind m (fun x => k))
  (at level 61, m at next level, right associativity).

Definition lift {A : Type} (r : result A) : M A := fun w => (r, w).

Definition emit (c : call) : M unit :=
  fun w => (Ok tt, mk_world (ec2_region w) (calls w ++ [c])%list).

Definition get_ec2_region : M string := fun w => (Ok (ec2_region w), w).

Definition set_ec2_region (r : string) : M unit :=
  fun w => (Ok tt, mk_world r (calls w)).

(** [try: m except ClientError as e: h1(e) except Exception as e: h2(e)]. *)
Definition try_except {A : Type} (m : M A)
  (on_client_error : pyexn -> M A) (on_exception : pyexn -> M A) : M A :=
  fun w =>
    match m w with
    | (Ok a, w') => (Ok a, w')
    | (Raise (ClientError code), w') => on_client_error (ClientError code) w'
    | (Raise e, w') => on_exception e w'
    end.

Definition mraise {A : Type} (e : pyexn) : M A := fun w => (Raise e, w).

(** The result of [lambda_handler]; [body] is the object handed to
    [json.dumps]. *)
Record response : Type := mk_response {
  statusCode : Z;
  body : pyval
}.

Section Handler.

(** The AWS side: the EC2 answer for a client region and zone name, the
    pages of the Health paginator for a region and zone, the region a new
    EC2 client ends up bound to, the text of an exception, the clock. *)
Variable describe_availability_zones : string -> pyval -> result pyval.
Variable describe_events_pages : pyval -> pyval -> result (list pyval).
Variable boto3_client_ec2 : pyval -> result string.
Variable str_exn : pyexn -> string.
Variable now_isoformat : string.

(** [events.extend(page.get('events', []))]. *)
Definition extend_with_page (events : list pyval) (page : pyval)
  : result (list pyval) :=
  evs <- py_get page "events" (PList []) ;;
  items <- py_iter evs ;;
  Ok (events ++ items)%list.

Definition error_code (e : pyexn) : string :=
  match e with
  | ClientError code => code
  | _ => ""
  end.

Definition get_az_health_events (region availability_zone : pyval) : M pyval :=
  try_except
    (_ <~ emit (DescribeEvents region availability_zone) ;;
     events <~ lift (pages <- describe_events_pages region availability_zone ;;
                   for_each extend_with_page pages []) ;;
     _ <~ emit (LogInfo ("Found " ++ str_of_nat (List.length events)
                        ++ " health events for AZ " ++ py_format availability_zone)) ;;
     mret (PList events))
    (fun e =>
       if String.eqb (error_code e) "SubscriptionRequiredException" then
         _ <~ emit (LogWarning
                     "AWS Health API requires AWS Business or Enterprise Support plan") ;;
         mret (PList [])
       else
         _ <~ emit (LogError ("Error querying Health API: " ++ str_exn e)) ;;
         mraise e)
    (fun e =>
       _ <~ emit (LogError ("Unexpected error querying Health API: " ++ str_exn e)) ;;
       mret (PList [])).

Definition check_az_status (availability_zone : pyval) : M pyval :=
  try_except
    (client_region <~ get_ec2_region ;;
     _ <~ emit (DescribeAvailabilityZones client_region availability_zone) ;;
     lift (response <- describe_availability_zones client_region availability_zone ;;
           zones <- py_get response "AvailabilityZones" PNone ;;
           if negb (truthy zones) then
             Ok (PDict [("exists", PBool false);
                        ("status", PStr "unknown");
                        ("state", PStr "unknown");
                        ("messages", PList [])])
           else
             zones' <- py_getitem response "AvailabilityZones" ;;
             az_info <- py_first zones' ;;
             zone_name <- py_get az_info "ZoneName" PNone ;;
             zone_id <- py_get az_info "ZoneId" PNone ;;
             state <- py_get az_info "State" PNone ;;
             region <- py_get az_info "RegionName" PNone ;;
             messages <- py_get az_info "Messages" (PList []) ;;
             network_border_group <- py_get az_info "NetworkBorderGroup" PNone ;;
             Ok (PDict [("exists", PBool true);
                        ("zone_name", zone_name);
                        ("zone_id", zone_id);
                        ("state", state);
                        ("region", region);
                        ("messages", messages);
                        ("network_border_group", network_border_group)])))
    (fun e =>
       _ <~ emit (LogError ("Error checking AZ status: " ++ str_exn e)) ;;
       mraise e)
    (fun e =>
       _ <~ emit (LogError ("Unexpected error checking AZ status: " ++ str_exn e)) ;;
       mraise e).

(** The response of the missing-parameter branch. *)
Definition missing_parameter_response : response :=
  mk_response 400
    (PDict [("error", PStr "Missing required parameter: availability_zone")]).

(** The [try] block of [lambda_handler]. *)
Definition handler_body (event : pyval) : M response :=
  availability_zone <~ lift (py_get event "availability_zone" PNone) ;;
  if negb (truthy availability_zone) then mret missing_parameter_response
  else
    region0 <~ lift (py_get event "region" PNone) ;;
    region <~ lift (if negb (truthy region0) then py_drop_last availability_zone
                   else Ok region0) ;;
    _ <~ emit (LogInfo ("Checking health for AZ: " ++ py_format availability_zone
                       ++ " in region: " ++ py_format region)) ;;
    current_region <~ get_ec2_region ;;
    _ <~ (if negb (py_eq_str region current_region) then
            _ <~ emit (Boto3ClientEc2 region) ;;
            r <~ lift (boto3_client_ec2 region) ;;
            set_ec2_region r
          else mret tt) ;;
    _ <~ emit (CallCheckAzStatus availability_zone) ;;
    az_info <~ check_az_status availability_zone ;;
    _ <~ emit (CallGetAzHealthEvents region availability_zone) ;;
    health_events <~ get_az_health_events region availability_zone ;;
    _ <~ emit (CallAnalyzeHealthStatus az_info health_events) ;;
    health_analysis <~ lift (analyze_health_status az_info health_events) ;;
    let response :=
      PDict [("availability_zone", availability_zone);
             ("region", region);
             ("timestamp", PStr now_isoformat);
             ("health", health_analysis)] in
    status <~ lift (py_getitem health_analysis "status") ;;
    _ <~ emit (LogInfo ("Health check complete: " ++ py_format status)) ;;
    mret (mk_response 200 response).

Definition error_response (error : string) (e : pyexn) : response :=
  mk_response 500 (PDict [("error", PStr error); ("message", PStr (str_exn e))]).

Definition lambda_handler (event context : pyval) (w : world) : response * world :=
  match handler_body event w with
  | (Ok r, w') => (r, w')
  | (Raise (ClientError code), w') =>
      let e := ClientError code in
      (error_response "AWS API error" e,
       mk_world (ec2_region w') (calls w' ++ [LogError ("AWS API error: " ++ str_exn e)]))
  | (Raise e, w') =>
      (error_response "Internal error" e,
       mk_world (ec2_region w') (calls w' ++ [LogError ("Unexpected error: " ++ str_exn e)]))
  end.

(** The error envelope: an object with an [error] string and a [message]
    string. *)
Definition is_error_envelope (b : pyval) : Prop :=
  exists error message : string,
    py_getitem b "error" = Ok (PStr error) /\
    py_getitem b "message" = Ok (PStr message).

End Handler.

(** ** Sample inputs *)

Definition plain_str (v : pyval) : string := "<object>".

Definition healthy_az : pyval :=
  PDict [("exists", PBool true);
         ("zone_name", PStr "us-east-1a");
         ("zone_id", PStr "use1-az1");
         ("state", PStr "available");
         ("region", PStr "us-east-1");
         ("messages", PList []);
         ("network_border_group", PStr "us-east-1")].

Definition maintenance_az : pyval :=
  PDict [("exists", PBool true);
         ("zone_name", PStr "us-east-1a");
         ("state", PStr "available");
         ("messages", PList [PStr "scheduled maintenance"])].

Definition impaired_az : pyval :=
  PDict [("exists", PBool true);
         ("zone_name", PStr "us-east-1a");
         ("state", PStr "impaired");
         ("messages", PList [PStr "scheduled maintenance"])].

(** What [check_az_status] returns for an unknown zone. *)
Definition missing_az : pyval :=
  PDict [("exists", PBool false);
         ("status", PStr "unknown");
         ("state", PStr "unknown");
         ("messages", PList [])].

Definition issue_event : pyval :=
  PDict [("arn", PStr "arn:aws:health:us-east-1::event/EC2/issue/1");
         ("service", PStr "EC2");
         ("eventTypeCode", PStr "AWS_EC2_OPERATIONAL_ISSUE");
         ("eventTypeCategory", PStr "issue");
         ("statusCode", PStr "open");
         ("startTime", PDatetime "2024-05-01T10:00:00+00:00")].

Definition change_event : pyval :=
  PDict [("arn", PStr "arn:aws:health:us-east-1::event/EC2/change/2");
         ("service", PStr "EC2");
         ("eventTypeCode", PStr "AWS_EC2_MAINTENANCE_SCHEDULED");
         ("eventTypeCategory", PStr "scheduledChange");
         ("statusCode", PStr "upcoming")].

(** An event with no category and no timestamps. *)
Definition bare_event : pyval :=
  PDict [("arn", PStr "arn:aws:health:us-east-1::event/EC2/other/3");
         ("service", PStr "EC2")].

(** An event whose start time is text rather than a [datetime]. *)
Definition text_time_event : pyval :=
  PDict [("service", PStr "EC2");
         ("eventTypeCategory", PStr "issue");
         ("startTime", PStr "2024-05-01T10:00:00+00:00")].

Definition sample_world : world := mk_world "us-east-1" [].

Definition sample_describe_availability_zones (client_region : string) (zone : pyval)
  : result pyval :=
  Ok (PDict [("AvailabilityZones",
              PList [PDict [("ZoneName", zone);
                            ("State", PStr "available");
                            ("RegionName", PStr client_region);
                            ("Messages", PList [])]])]).

Definition sample_describe_events_pages (region zone : pyval) : result (list pyval) :=
  Ok [PDict [("events", PList [issue_event])]].

Definition sample_boto3_client_ec2 (region : pyval) : result string :=
  match region with
  | PStr r => Ok r
  | _ => Raise TypeError
  end.

Definition sample_str_exn (e : pyexn) : string := "error".

(** ** Closed forms of what the rules accumulate *)

(** [d.get(k, default)] on the entries of a dict. *)
Definition dict_get (d : list (string * pyval)) (k : string) (default : pyval) : pyval :=
  match dict_lookup d k with Some x => x | None => default end.

(** The issue the lifecycle-state rule files, if any. *)
Definition state_issues (d : list (string * pyval)) : list string :=
  if py_eq_str (dict_get d "state" PNone) "available" then []
  else ["AZ state is " ++ py_format (dict_get d "state" PNone) ++ " (expected: available)"].

(** The issues the operator-message rule files. *)
Definition message_issues (d : list (string * pyval)) : list string :=
  if truthy (dict_get d "messages" PNone) then
    match py_iter (dict_get d "messages" PNone) with
    | Ok msgs => map (fun msg => "AZ message: " ++ py_format msg) msgs
    | Raise _ => []
    end
  else [].

(** The issues the event rule files: one per critical event, in order. *)
Definition event_issues (tags : list (option string * pyval)) : list string :=
  flat_map (fun t => match fst t with Some issue => [issue] | None => [] end) tags.

Definition verdict_statuses : list string :=
  ["healthy"; "degraded"; "unhealthy"; "error"].

(** ** Notions used to state the properties of the lookups and the handler *)

(** The world after one more call. *)
Definition record_call (c : call) (w : world) : world :=
  mk_world (ec2_region w) (app (calls w) [c]).

(** A page of the Health paginator carrying the events [evs]; a page
    without an [events] entry carries none. *)
Definition page_has_events (page : pyval) (evs : list pyval) : Prop :=
  exists d, page = PDict d /\ dict_get d "events" (PList []) = PList evs.

(** The calls that belong to the health-event lookup and to the analysis. *)
Definition after_az_lookup (c : call) : bool :=
  match c with
  | DescribeEvents _ _ | CallGetAzHealthEvents _ _ | CallAnalyzeHealthStatus _ _ => true
  | _ => false
  end.

Definition is_client_error (e : pyexn) : bool :=
  match e with ClientError _ => true | _ => false end.

(** EC2 knows no zone by that name. *)
Definition unknown_zone_describe (client_region : string) (zone : pyval) : result pyval :=
  Ok (PDict [("AvailabilityZones", PList [])]).

(** EC2 refuses the request. *)
Definition failing_describe (client_region : string) (zone : pyval) : result pyval :=
  Raise (ClientError "UnauthorizedOperation").

(** The Health API without a Business or Enterprise support plan. *)
Definition gated_describe_events_pages (region zone : pyval) : result (list pyval) :=
  Raise (ClientError "SubscriptionRequiredException").


(** Two pages, the second one without an [events] entry, then a third. *)
Definition three_pages (region zone : pyval) : result (list pyval) :=
  Ok [PDict [("events", PList [issue_event])];
      PDict [("nextToken", PStr "t")];
      PDict [("events", PList [change_event; bare_event])]].

(** A page that is not a dict after a well-formed one. *)
Definition broken_pages (region zone : pyval) : result (list pyval) :=
  Ok [PDict [("events", PList [issue_event])]; PNone].

(** A request for [us-east-1a], and one that names its region. *)
Definition zone_request_entries : list (string * pyval) :=
  [("availability_zone", PStr "us-east-1a")].

Definition region_request_entries : list (string * pyval) :=
  [("availability_zone", PStr "us-east-1a"); ("region", PStr "eu-west-1")].

Definition impaired_entries : list (string * pyval) :=
  [("exists", PBool true);
   ("zone_name", PStr "us-east-1a");
   ("state", PStr "impaired");
   ("messages", PList [PStr "scheduled maintenance"])].

Definition sample_now : string := "2024-05-01T12:00:00".

(** ** The stages of the handler *)

Section HandlerStages.

Variable describe_availability_zones : string -> pyval -> result pyval.
Variable describe_events_pages : pyval -> pyval -> result (list pyval).
Variable boto3_client_ec2 : pyval -> result string.
Variable str_exn : pyexn -> string.
Variable now_isoformat : string.

(** The region the handler works with: the request's, or the zone name
    without its last character. *)
Definition resolve_region (event availability_zone : pyval) : result pyval :=
  region <- py_get event "region" PNone ;;
  if negb (truthy region) then py_drop_last availability_zone else Ok region.

(** Reinitialize EC2 client with correct region if needed. *)
Definition rebind_client (region : pyval) : M unit :=
  current_region <~ get_ec2_region ;;
  if negb (py_eq_str region current_region) then
    _ <~ emit (Boto3ClientEc2 region) ;;
    r <~ lift (boto3_client_ec2 region) ;;
    set_ec2_region r
  else mret tt.

(** The two lookups, the analysis and the response. *)
Definition assess (availability_zone region : pyval) : M response :=
  _ <~ emit (CallCheckAzStatus availability_zone) ;;
  az_info <~ check_az_status describe_availability_zones str_exn availability_zone ;;
  _ <~ emit (CallGetAzHealthEvents region availability_zone) ;;
  health_events <~ get_az_health_events describe_events_pages str_exn
                     region availability_zone ;;
  _ <~ emit (CallAnalyzeHealthStatus az_info health_events) ;;
  health_analysis <~ lift (analyze_health_status az_info health_events) ;;
  status <~ lift (py_getitem health_analysis "status") ;;
  _ <~ emit (LogInfo ("Health check complete: " ++ py_format status)) ;;
  mret (mk_response 200
          (PDict [("availability_zone", availability_zone);
                  ("region", region);
                  ("timestamp", PStr now_isoformat);
                  ("health", health_analysis)])).

End HandlerStages.

(** ** Properties of the classifier *)

Lemma bind_ok {A B : Type} (r : result A) (k : A -> result B) (b : B) :
  bind r k = Ok b -> exists a, r = Ok a /\ k a = Ok b.
Proof.
  destruct r as [a|e]; simpl; intros H; [eauto | discriminate].
Qed.

Ltac bind_inv H :=
  let a := fresh "a" in
  let Ha := fresh "Ha" in
  apply bind_ok in H; destruct H as (a & Ha & H).

Lemma py_get_ok_dict (v : pyval) (k : string) (default x : pyval) :
  py_get v k default = Ok x -> exists d, v = PDict d.
Proof.
  destruct v; simpl; intros H; try discriminate. eauto.
Qed.

Lemma severity_le_refl (a : severity) : severity_le a a.
Proof. unfold severity_le. lia. Qed.

Lemma severity_le_trans (a b c : severity) :
  severity_le a b -> severity_le b c -> severity_le a c.
Proof. unfold severity_le. lia. Qed.

Lemma severity_le_critical (a : severity) : severity_le a Critical.
Proof. destruct a; unfold severity_le; simpl; lia. Qed.

Lemma raise_to_warning_le (a : severity) :
  severity_le a (if severity_eqb a Healthy then Warning else a).
Proof. destruct a; unfold severity_le; simpl; lia. Qed.

Lemma raise_to_critical_le (a : severity) :
  severity_le a (if negb (severity_eqb a Critical) then Critical else a).
Proof. destruct a; unfold severity_le; simpl; lia. Qed.

(** The loop body is [tag_event] followed by [apply_tag]. *)
Lemma classify_event_tag (st : cstate) (event : pyval) :
  classify_event st event = t <- tag_event event ;; Ok (apply_tag st t).
Proof.
  unfold classify_event, tag_event.
  destruct (py_get event "eventTypeCategory" (PStr "")) as [cat|e]; simpl; [|reflexivity].
  destruct (event_info event) as [info|e]; simpl; [|reflexivity].
  destruct (is_critical_category cat); simpl; [|reflexivity].
  destruct (critical_issue event) as [issue|e]; reflexivity.
Qed.

(** The gate: a falsy [exists] entry ends the analysis at once. *)
Lemma analyze_gate (az_info health_events ex : pyval) :
  py_get az_info "exists" PNone = Ok ex ->
  truthy ex = false ->
  analyze_health_status az_info health_events = Ok not_found_verdict.
Proof.
  intros Hget Hex.
  unfold analyze_health_status. rewrite Hget. simpl. rewrite Hex. reflexivity.
Qed.

(** [C1] Existence gate: when [az_info.get('exists')] is falsy, whatever
    the events argument is (any object at all, iterable or not), the
    classifier returns the fixed verdict with status [error], severity
    [critical], issues [["AZ not found"]] and the empty [health_events]
    list; the verdict has no [critical_events] or [warning_events] entry. *)
Theorem existence_gate :
  forall (az_info health_events ex : pyval),
    py_get az_info "exists" PNone = Ok ex ->
    truthy ex = false ->
    analyze_health_status az_info health_events =
      Ok (PDict [("status", PStr "error");
                 ("severity", PStr "critical");
                 ("message", PStr "Availability Zone does not exist");
                 ("issues", PList [PStr "AZ not found"]);
                 ("health_events", PList [])]).
Proof.
  intros az_info health_events ex Hget Hex.
  exact (analyze_gate az_info health_events ex Hget Hex).
Qed.

(** [C7] Empty-input baseline: an existing AZ in state [available] with an
    empty message list and no events is healthy, with no issues. *)
Theorem empty_input_baseline :
  forall d : list (string * pyval),
    dict_lookup d "exists" = Some (PBool true) ->
    dict_lookup d "state" = Some (PStr "available") ->
    dict_lookup d "messages" = Some (PList []) ->
    analyze_health_status (PDict d) (PList []) =
      Ok (PDict [("status", PStr "healthy");
                 ("severity", PStr "healthy");
                 ("message", PStr "AZ is healthy");
                 ("issues", PList []);
                 ("critical_events", PList []);
                 ("warning_events", PList []);
                 ("az_info", PDict d)]).
Proof.
  intros d Hex Hstate Hmsgs.
  unfold analyze_health_status, rule_state, rule_messages, rule_events. simpl.
  rewrite Hex. simpl. rewrite Hstate. simpl. rewrite Hmsgs. reflexivity.
Qed.

(** [C4] Operator-message rule.  When it returns, the rule leaves the
    severity alone or moves it from [healthy] to [warning]; on a list of
    messages it appends one issue per message, in order, each quoting its
    message.  Message-only case: an existing [available] AZ with the single
    message ["scheduled maintenance"] and no events is [degraded] /
    [warning] with exactly one issue, which quotes the message. *)
Theorem operator_message_rule :
  (forall az_info st st',
      rule_messages az_info st = Ok st' ->
      sev st' = sev st \/ (sev st = Healthy /\ sev st' = Warning)) /\
  (forall d st (msgs : list string),
      dict_lookup d "messages" = Some (strs msgs) ->
      exists st',
        rule_messages (PDict d) st = Ok st' /\
        issues st' = app (issues st) (map (fun m => "AZ message: " ++ m) msgs) /\
        List.length (issues st') = List.length (issues st) + List.length msgs /\
        critical_events st' = critical_events st /\
        warning_events st' = warning_events st) /\
  (forall d,
      dict_lookup d "exists" = Some (PBool true) ->
      dict_lookup d "state" = Some (PStr "available") ->
      dict_lookup d "messages" = Some (PList [PStr "scheduled maintenance"]) ->
      analyze_health_status (PDict d) (PList []) =
        Ok (PDict [("status", PStr "degraded");
                   ("severity", PStr "warning");
                   ("message", PStr "AZ is degraded");
                   ("issues", PList [PStr "AZ message: scheduled maintenance"]);
                   ("critical_events", PList []);
                   ("warning_events", PList []);
                   ("az_info", PDict d)])).
Proof.
  split; [|split].
  - intros az_info st st' H. unfold rule_messages in H.
    bind_inv H. destruct (truthy a).
    + bind_inv H. bind_inv H. injection H as <-. simpl.
      destruct (sev st); simpl; auto.
    + injection H as <-. auto.
  - intros d st msgs Hm. unfold rule_messages. simpl. rewrite Hm.
    destruct msgs as [|m msgs].
    + simpl. exists st. rewrite app_nil_r. repeat split; lia.
    + cbn [strs map truthy bind py_iter]. eexists. split; [reflexivity|].
      cbn [issues critical_events warning_events].
      rewrite map_map. split; [reflexivity|]. split; [|split; reflexivity].
      rewrite length_app. simpl. rewrite length_map. reflexivity.
  - intros d Hex Hstate Hmsgs.
    unfold analyze_health_status, rule_state, rule_messages, rule_events. simpl.
    rewrite Hex. simpl. rewrite Hstate. simpl. rewrite Hmsgs. reflexivity.
Qed.

(** [C5] Critical event dominates: for an existing [available] AZ with no
    messages and a single event of category [issue], the verdict is
    [unhealthy] / [critical]; the event's summary is the only member of
    [critical_events], [warning_events] is empty, and the only issue names
    the event's type code and service. *)
Theorem critical_event_dominates :
  forall (d e : list (string * pyval)) (info : pyval),
    dict_lookup d "exists" = Some (PBool true) ->
    dict_lookup d "state" = Some (PStr "available") ->
    dict_lookup d "messages" = Some (PList []) ->
    dict_lookup e "eventTypeCategory" = Some (PStr "issue") ->
    event_info (PDict e) = Ok info ->
    exists code service : pyval,
      py_get (PDict e) "eventTypeCode" PNone = Ok code /\
      py_get (PDict e) "service" PNone = Ok service /\
      analyze_health_status (PDict d) (PList [PDict e]) =
        Ok (PDict [("status", PStr "unhealthy");
                   ("severity", PStr "critical");
                   ("message", PStr "AZ is unhealthy");
                   ("issues",
                    PList [PStr ("Critical event: " ++ py_format code
                                 ++ " - " ++ py_format service)]);
                   ("critical_events", PList [info]);
                   ("warning_events", PList []);
                   ("az_info", PDict d)]).
Proof.
  intros d e info Hex Hstate Hmsgs Hcat Hinfo.
  do 2 eexists. split; [reflexivity|]. split; [reflexivity|].
  unfold analyze_health_status, rule_state, rule_messages, rule_events. simpl.
  rewrite Hex. simpl. rewrite Hstate. simpl. rewrite Hmsgs. simpl.
  unfold classify_event. simpl py_get at 1. rewrite Hcat, Hinfo. reflexivity.
Qed.

(** *** The loop over the events *)

Lemma for_each_app {S A : Type} (body : S -> A -> result S) (pre post : list A) (st : S) :
  for_each body (pre ++ post) st =
  mid <- for_each body pre st ;; for_each body post mid.
Proof.
  revert st. induction pre as [|x pre IH]; intros st; simpl; [reflexivity|].
  destruct (body st x) as [st'|e]; simpl; [apply IH | reflexivity].
Qed.

Lemma for_each_classify (events : list pyval) (st : cstate) :
  for_each classify_event events st =
  tags <- map_result tag_event events ;; Ok (fold_left apply_tag tags st).
Proof.
  revert st. induction events as [|event events IH]; intros st; simpl; [reflexivity|].
  rewrite classify_event_tag.
  destruct (tag_event event) as [t|e]; simpl; [|reflexivity].
  rewrite IH. destruct (map_result tag_event events) as [tags|e]; reflexivity.
Qed.

Lemma apply_tag_sev_le (st : cstate) (t : option string * pyval) :
  severity_le (sev st) (sev (apply_tag st t)).
Proof.
  unfold apply_tag. destruct (fst t); simpl;
    [apply raise_to_critical_le | apply raise_to_warning_le].
Qed.

Lemma classify_event_sev_le (st st' : cstate) (event : pyval) :
  classify_event st event = Ok st' -> severity_le (sev st) (sev st').
Proof.
  rewrite classify_event_tag. intros H. bind_inv H.
  injection H as <-. apply apply_tag_sev_le.
Qed.

Lemma for_each_classify_sev_le (events : list pyval) (st st' : cstate) :
  for_each classify_event events st = Ok st' -> severity_le (sev st) (sev st').
Proof.
  revert st. induction events as [|event events IH]; intros st H; simpl in H.
  - injection H as <-. apply severity_le_refl.
  - bind_inv H. apply severity_le_trans with (sev a).
    + eapply classify_event_sev_le; eassumption.
    + apply IH; assumption.
Qed.

Lemma rule_state_sev_le (az_info : pyval) (st st' : cstate) :
  rule_state az_info st = Ok st' -> severity_le (sev st) (sev st').
Proof.
  unfold rule_state. intros H. bind_inv H.
  destruct (negb (py_eq_str a "available")).
  - bind_inv H. injection H as <-. apply severity_le_critical.
  - injection H as <-. apply severity_le_refl.
Qed.

Lemma rule_messages_sev_le (az_info : pyval) (st st' : cstate) :
  rule_messages az_info st = Ok st' -> severity_le (sev st) (sev st').
Proof.
  unfold rule_messages. intros H. bind_inv H. destruct (truthy a).
  - bind_inv H. bind_inv H. injection H as <-. apply raise_to_warning_le.
  - injection H as <-. apply severity_le_refl.
Qed.

Lemma rule_events_sev_le (health_events : pyval) (st st' : cstate) :
  rule_events health_events st = Ok st' -> severity_le (sev st) (sev st').
Proof.
  unfold rule_events. intros H. bind_inv H.
  eapply for_each_classify_sev_le; eassumption.
Qed.

(** Past the gate, a returned verdict is the one built from the state the
    three rules produce in turn. *)
Lemma analyze_rules (az_info health_events ex out : pyval) :
  py_get az_info "exists" PNone = Ok ex ->
  truthy ex = true ->
  analyze_health_status az_info health_events = Ok out ->
  exists st1 st2 st3,
    rule_state az_info initial_cstate = Ok st1 /\
    rule_messages az_info st1 = Ok st2 /\
    rule_events health_events st2 = Ok st3 /\
    out = verdict az_info st3.
Proof.
  intros Hget Hex H. unfold analyze_health_status in H.
  rewrite Hget in H. simpl in H. rewrite Hex in H. simpl in H.
  bind_inv H. bind_inv H. bind_inv H. injection H as <-.
  eauto 8.
Qed.

(** [C2] Monotonic severity: past the existence gate, each of the
    lifecycle-state rule, the operator-message rule and the event rule
    (as a whole, after every single event, and after every prefix of the
    events) leaves the severity at least as high as it found it, whatever
    state it starts from; and the severities a run of the classifier goes
    through, healthy at the start, then after each of the three rules, form
    a non-decreasing chain ending in the severity of the verdict. *)
Theorem severity_monotone :
  forall (az_info health_events ex : pyval),
    py_get az_info "exists" PNone = Ok ex ->
    truthy ex = true ->
    (forall st st', rule_state az_info st = Ok st' -> severity_le (sev st) (sev st')) /\
    (forall st st', rule_messages az_info st = Ok st' -> severity_le (sev st) (sev st')) /\
    (forall st st', rule_events health_events st = Ok st' -> severity_le (sev st) (sev st')) /\
    (forall st st' event,
        classify_event st event = Ok st' -> severity_le (sev st) (sev st')) /\
    (forall st st' pre post,
        for_each classify_event (pre ++ post) st = Ok st' ->
        exists mid,
          for_each classify_event pre st = Ok mid /\
          severity_le (sev st) (sev mid) /\ severity_le (sev mid) (sev st')) /\
    (forall out,
        analyze_health_status az_info health_events = Ok out ->
        exists st1 st2 st3,
          rule_state az_info initial_cstate = Ok st1 /\
          rule_messages az_info st1 = Ok st2 /\
          rule_events health_events st2 = Ok st3 /\
          out = verdict az_info st3 /\
          severity_le Healthy (sev st1) /\
          severity_le (sev st1) (sev st2) /\
          severity_le (sev st2) (sev st3)).
Proof.
  intros az_info health_events ex Hget Hex.
  split; [intros st st'; apply rule_state_sev_le|].
  split; [intros st st'; apply rule_messages_sev_le|].
  split; [intros st st'; apply rule_events_sev_le|].
  split; [intros st st' event; apply classify_event_sev_le|].
  split.
  - intros st st' pre post H. rewrite for_each_app in H. bind_inv H.
    exists a. split; [assumption|].
    split; eapply for_each_classify_sev_le; eassumption.
  - intros out H.
    destruct (analyze_rules _ _ _ _ Hget Hex H) as (st1 & st2 & st3 & H1 & H2 & H3 & ->).
    exists st1, st2, st3. repeat split; try assumption.
    + apply (rule_state_sev_le _ _ _ H1).
    + apply (rule_messages_sev_le _ _ _ H2).
    + apply (rule_events_sev_le _ _ _ H3).
Qed.

Lemma status_of_severity_not_error (s : severity) : status_of_severity s <> "error".
Proof. destruct s; discriminate. Qed.

(** [C6] Status derivation: past the existence gate the verdict's status
    is the image of its severity under critical -> unhealthy, warning ->
    degraded, healthy -> healthy, and is never [error]; a returned verdict
    has status [error] exactly when the existence gate fired. *)
Theorem status_derivation :
  forall (az_info health_events ex out : pyval),
    py_get az_info "exists" PNone = Ok ex ->
    analyze_health_status az_info health_events = Ok out ->
    (truthy ex = true ->
     exists s : severity,
       py_getitem out "severity" = Ok (PStr (severity_str s)) /\
       py_getitem out "status" = Ok (PStr (status_of_severity s)) /\
       status_of_severity s <> "error") /\
    (py_getitem out "status" = Ok (PStr "error") <-> truthy ex = false) /\
    status_of_severity Critical = "unhealthy" /\
    status_of_severity Warning = "degraded" /\
    status_of_severity Healthy = "healthy".
Proof.
  intros az_info health_events ex out Hget H.
  assert (Hpast : truthy ex = true ->
                  exists s, out = verdict az_info (mk_cstate (fst (fst s)) (snd (fst s))
                                                         (fst (snd s)) (snd (snd s)))).
  { intros Hex.
    destruct (analyze_rules _ _ _ _ Hget Hex H) as (st1 & st2 & [i s c w] & _ & _ & _ & ->).
    exists ((i, s), (c, w)). reflexivity. }
  split; [|split].
  - intros Hex. destruct (Hpast Hex) as ([[i s] [c w]] & ->). simpl.
    exists s. repeat split. apply status_of_severity_not_error.
  - destruct (truthy ex) eqn:Hex.
    + destruct (Hpast eq_refl) as ([[i s] [c w]] & ->). simpl.
      split; [|discriminate]. intros E. injection E as E.
      exfalso. exact (status_of_severity_not_error _ E).
    + rewrite (analyze_gate _ health_events _ Hget Hex) in H.
      injection H as <-. split; reflexivity.
  - repeat split.
Qed.

Lemma is_critical_category_false (v : pyval) :
  v <> PStr "issue" -> v <> PStr "accountNotification" ->
  is_critical_category v = false.
Proof.
  intros H1 H2. unfold is_critical_category, py_in_strs. simpl.
  destruct v; try reflexivity. simpl.
  destruct (String.eqb_spec s "issue") as [->|_]; [congruence|].
  destruct (String.eqb_spec s "accountNotification") as [->|_]; [congruence|].
  reflexivity.
Qed.

(** [C10] An event whose [eventTypeCategory] is absent, or is any value
    other than ['issue'] and ['accountNotification'], goes through the
    loop body as follows (its summary being computed): the summary is
    appended to [warning_events], the critical bucket and the issues list
    are left as they were, and the severity becomes [warning] if it was
    [healthy] and is unchanged otherwise. *)
Theorem other_category_is_warning :
  forall (st : cstate) (e : list (string * pyval)) (info : pyval),
    (dict_lookup e "eventTypeCategory" = None \/
     exists v, dict_lookup e "eventTypeCategory" = Some v /\
               v <> PStr "issue" /\ v <> PStr "accountNotification") ->
    event_info (PDict e) = Ok info ->
    exists st',
      classify_event st (PDict e) = Ok st' /\
      warning_events st' = app (warning_events st) [info] /\
      critical_events st' = critical_events st /\
      issues st' = issues st /\
      (sev st = Healthy -> sev st' = Warning) /\
      (sev st <> Healthy -> sev st' = sev st).
Proof.
  intros st e info Hcat Hinfo.
  assert (Hc : exists cat, py_get (PDict e) "eventTypeCategory" (PStr "") = Ok cat /\
                           is_critical_category cat = false).
  { destruct Hcat as [Hnone | (v & Hsome & H1 & H2)]; simpl.
    - rewrite Hnone. eexists. split; reflexivity.
    - rewrite Hsome. eexists. split; [reflexivity|].
      apply is_critical_category_false; assumption. }
  destruct Hc as (cat & Hget & Hnc).
  unfold classify_event. rewrite Hget, Hinfo. simpl. rewrite Hnc.
  eexists. split; [reflexivity|]. simpl. repeat split.
  - intros ->. reflexivity.
  - intros Hne. destruct (sev st); try reflexivity. congruence.
Qed.

(** *** Totality *)

Lemma iso_or_none_ok (d : list (string * pyval)) (k : string) :
  timestamp_ok d k = true -> exists v, iso_or_none (PDict d) k = Ok v.
Proof.
  unfold timestamp_ok, iso_or_none. simpl.
  destruct (dict_lookup d k) as [t|]; simpl; [|eauto].
  destruct (truthy t) eqn:Ht; simpl; [|eauto].
  destruct t; simpl; try discriminate. eauto.
Qed.

Lemma iso_or_none_absent (d : list (string * pyval)) (k : string) :
  dict_lookup d k = None -> iso_or_none (PDict d) k = Ok PNone.
Proof.
  intros H. unfold iso_or_none. simpl. rewrite H. reflexivity.
Qed.

Lemma iso_or_none_raises (d : list (string * pyval)) (k : string) (t : pyval) :
  dict_lookup d k = Some t -> truthy t = true -> is_datetime t = false ->
  iso_or_none (PDict d) k = Raise AttributeError.
Proof.
  intros H Ht Hd. unfold iso_or_none. simpl. rewrite H, Ht.
  destruct t; try reflexivity. discriminate.
Qed.

Lemma tag_event_ok (event : pyval) :
  event_ok event = true -> exists t, tag_event event = Ok t.
Proof.
  destruct event as [| | | | | |d]; simpl; try discriminate.
  intros H. apply andb_prop in H. destruct H as [H H3].
  apply andb_prop in H. destruct H as [H1 H2].
  destruct (iso_or_none_ok _ _ H1) as (v1 & E1).
  destruct (iso_or_none_ok _ _ H2) as (v2 & E2).
  destruct (iso_or_none_ok _ _ H3) as (v3 & E3).
  unfold tag_event, event_info, critical_issue. rewrite E1, E2, E3. simpl.
  destruct (is_critical_category _); eauto.
Qed.

Lemma map_result_tag_ok (events : list pyval) :
  forallb event_ok events = true ->
  exists tags, map_result tag_event events = Ok tags.
Proof.
  induction events as [|event events IH]; simpl; intros H; [eauto|].
  apply andb_prop in H. destruct H as [H1 H2].
  destruct (tag_event_ok _ H1) as (t & ->).
  destruct (IH H2) as (tags & ->). simpl. eauto.
Qed.

Lemma iso_or_none_ok_inv (d : list (string * pyval)) (k : string) (v : pyval) :
  iso_or_none (PDict d) k = Ok v -> timestamp_ok d k = true.
Proof.
  unfold timestamp_ok, iso_or_none. simpl.
  destruct (dict_lookup d k) as [t|]; simpl; [|reflexivity].
  destruct (truthy t) eqn:Ht; simpl; [|reflexivity].
  destruct t; simpl; intros H; try discriminate. reflexivity.
Qed.

Lemma tag_event_ok_inv (event : pyval) (t : option string * pyval) :
  tag_event event = Ok t -> event_ok event = true.
Proof.
  unfold tag_event. intros H. bind_inv H.
  destruct (py_get_ok_dict _ _ _ _ Ha) as (d & ->).
  apply bind_ok in H. destruct H as (info & Hinfo & _).
  unfold event_info in Hinfo. simpl in Hinfo.
  destruct (iso_or_none (PDict d) "startTime") as [v1|] eqn:E1; [|discriminate].
  destruct (iso_or_none (PDict d) "endTime") as [v2|] eqn:E2; [|discriminate].
  destruct (iso_or_none (PDict d) "lastUpdatedTime") as [v3|] eqn:E3; [|discriminate].
  simpl. rewrite (iso_or_none_ok_inv _ _ _ E1), (iso_or_none_ok_inv _ _ _ E2),
    (iso_or_none_ok_inv _ _ _ E3). reflexivity.
Qed.

Lemma map_result_tag_ok_inv (events : list pyval) (tags : list (option string * pyval)) :
  map_result tag_event events = Ok tags -> forallb event_ok events = true.
Proof.
  revert tags. induction events as [|event events IH]; simpl; intros tags H; [reflexivity|].
  bind_inv H. bind_inv H.
  rewrite (tag_event_ok_inv _ _ Ha), (IH _ Ha0). reflexivity.
Qed.

(** [C8] The classifier is a function of its two arguments and returns a
    verdict, raising nothing, on every input where [az_info] is a dict
    whose [messages] entry is absent, falsy or iterable, the events are an
    iterable of dicts, and each of the three timestamps of each event is
    absent, falsy or a datetime; past the existence gate it returns on no
    other input.  An absent timestamp is summarised as [None] and an absent
    category is read as the empty string, which is not a critical category.
    A timestamp that is present, truthy and not a datetime makes the
    summary raise [AttributeError]. *)
Theorem classifier_total :
  (forall az_info health_events : pyval,
      az_info_ok az_info = true ->
      events_ok health_events = true ->
      exists out, analyze_health_status az_info health_events = Ok out) /\
  (forall d k, dict_lookup d k = None -> iso_or_none (PDict d) k = Ok PNone) /\
  (forall d,
      dict_lookup d "eventTypeCategory" = None ->
      py_get (PDict d) "eventTypeCategory" (PStr "") = Ok (PStr "") /\
      is_critical_category (PStr "") = false) /\
  (forall d k t,
      dict_lookup d k = Some t -> truthy t = true -> is_datetime t = false ->
      iso_or_none (PDict d) k = Raise AttributeError) /\
  (forall az_info health_events ex out,
      py_get az_info "exists" PNone = Ok ex ->
      truthy ex = true ->
      analyze_health_status az_info health_events = Ok out ->
      az_info_ok az_info = true /\ events_ok health_events = true).
Proof.
  split; [|split; [|split; [|split]]].
  - intros az_info health_events Haz Hev.
    destruct az_info as [| | | | | |d]; simpl in Haz; try discriminate.
    unfold analyze_health_status. simpl.
    destruct (negb (truthy _)); [eauto|].
    unfold rule_state. simpl.
    set (st1 := if negb (py_eq_str _ "available") then _ else _).
    assert (E1 : exists s1 : cstate, st1 = Ok s1).
    { subst st1. destruct (negb (py_eq_str _ "available")); eauto. }
    destruct E1 as (s1 & ->). simpl.
    assert (E2 : exists s2, rule_messages (PDict d) s1 = Ok s2).
    { unfold rule_messages. simpl.
      destruct (dict_lookup d "messages") as [m|]; simpl; [|eauto].
      destruct (truthy m) eqn:Ht; simpl in *; [|eauto].
      destruct m; simpl in *; try discriminate; eauto. }
    destruct E2 as (s2 & ->). simpl.
    unfold rule_events, events_ok in *.
    destruct (py_iter health_events) as [events|e]; [|discriminate]. simpl.
    rewrite for_each_classify.
    destruct (map_result_tag_ok _ Hev) as (tags & ->). simpl. eauto.
  - apply iso_or_none_absent.
  - intros d H. simpl. rewrite H. split; reflexivity.
  - apply iso_or_none_raises.
  - intros az_info health_events ex out Hget Hex H.
    destruct (analyze_rules _ _ _ _ Hget Hex H) as (st1 & st2 & st3 & _ & H2 & H3 & _).
    destruct (py_get_ok_dict _ _ _ _ Hget) as (d & ->).
    split.
    + unfold rule_messages in H2. simpl in *.
      destruct (dict_lookup d "messages") as [m|]; [|reflexivity].
      destruct (truthy m) eqn:Ht; simpl in *; [|reflexivity].
      destruct m; simpl in *; try discriminate; reflexivity.
    + unfold rule_events in H3. unfold events_ok.
      destruct (py_iter health_events) as [events|e]; [|discriminate].
      simpl in H3. rewrite for_each_classify in H3.
      apply bind_ok in H3. destruct H3 as (tags & T & _).
      exact (map_result_tag_ok_inv _ _ T).
Qed.

(** *** Order of the events *)

Lemma map_result_length {A B : Type} (f : A -> result B) (l : list A) (ys : list B) :
  map_result f l = Ok ys -> List.length ys = List.length l.
Proof.
  revert ys. induction l as [|x l IH]; simpl; intros ys H.
  - injection H as <-. reflexivity.
  - bind_inv H. bind_inv H. injection H as <-. simpl. f_equal. apply IH. assumption.
Qed.

Lemma map_result_perm {A B : Type} (f : A -> result B) (l1 l2 : list A) :
  Permutation l1 l2 ->
  forall ys1, map_result f l1 = Ok ys1 ->
  exists ys2, map_result f l2 = Ok ys2 /\ Permutation ys1 ys2.
Proof.
  induction 1 as [|x l l' _ IH|x y l|l l' l'' _ IH1 _ IH2]; intros ys1 H.
  - simpl in H. injection H as <-. exists []. split; [reflexivity | constructor].
  - simpl in H. bind_inv H. bind_inv H. injection H as <-.
    destruct (IH _ Ha0) as (ys2 & E & P).
    exists (a :: ys2). simpl. rewrite Ha, E. split; [reflexivity | constructor; assumption].
  - simpl in H.
    destruct (f y) as [b1|] eqn:E1; simpl in H; [|discriminate].
    destruct (f x) as [b2|] eqn:E2; simpl in H; [|discriminate].
    destruct (map_result f l) as [bs|] eqn:E3; simpl in H; [|discriminate].
    injection H as <-.
    exists (b2 :: b1 :: bs). simpl. rewrite E1, E2, E3.
    split; [reflexivity | constructor].
  - destruct (IH1 _ H) as (ys2 & E2 & P2).
    destruct (IH2 _ E2) as (ys3 & E3 & P3).
    exists ys3. split; [assumption | eapply perm_trans; eassumption].
Qed.

Lemma filter_perm {A : Type} (f : A -> bool) (l1 l2 : list A) :
  Permutation l1 l2 -> Permutation (filter f l1) (filter f l2).
Proof.
  induction 1 as [|x l l' _ IH|x y l|l l' l'' _ IH1 _ IH2]; simpl.
  - constructor.
  - destruct (f x); [constructor|]; assumption.
  - destruct (f x), (f y); try apply Permutation_refl. constructor.
  - eapply perm_trans; eassumption.
Qed.

Lemma filter_length_split {A : Type} (f : A -> bool) (l : list A) :
  List.length (filter f l) + List.length (filter (fun x => negb (f x)) l) = List.length l.
Proof.
  induction l as [|x l IH]; simpl; [reflexivity|].
  destruct (f x); simpl; lia.
Qed.

Lemma fold_apply_tag_sev (tags : list (option string * pyval)) (st : cstate) :
  sev (fold_left apply_tag tags st) = fold_left sev_step tags (sev st).
Proof.
  revert st. induction tags as [|t tags IH]; intros st; simpl; [reflexivity|].
  rewrite IH. f_equal. unfold sev_step, apply_tag. destruct (fst t); reflexivity.
Qed.

Lemma sev_step_comm (s : severity) (t u : option string * pyval) :
  sev_step (sev_step s t) u = sev_step (sev_step s u) t.
Proof.
  unfold sev_step, apply_tag. destruct (fst t), (fst u), s; reflexivity.
Qed.

Lemma fold_sev_step_perm (t1 t2 : list (option string * pyval)) :
  Permutation t1 t2 ->
  forall s, fold_left sev_step t1 s = fold_left sev_step t2 s.
Proof.
  induction 1 as [|x l l' _ IH|x y l|l l' l'' _ IH1 _ IH2]; intros s; simpl.
  - reflexivity.
  - apply IH.
  - rewrite sev_step_comm. reflexivity.
  - rewrite IH1. apply IH2.
Qed.

Lemma fold_apply_tag_critical (tags : list (option string * pyval)) (st : cstate) :
  critical_events (fold_left apply_tag tags st) =
  app (critical_events st) (critical_infos tags).
Proof.
  revert st. induction tags as [|t tags IH]; intros st; simpl.
  - unfold critical_infos. simpl. rewrite app_nil_r. reflexivity.
  - rewrite IH. unfold critical_infos, apply_tag, is_critical_tag. simpl.
    destruct (fst t); simpl; [rewrite <- app_assoc|]; reflexivity.
Qed.

Lemma fold_apply_tag_warning (tags : list (option string * pyval)) (st : cstate) :
  warning_events (fold_left apply_tag tags st) =
  app (warning_events st) (warning_infos tags).
Proof.
  revert st. induction tags as [|t tags IH]; intros st; simpl.
  - unfold warning_infos. simpl. rewrite app_nil_r. reflexivity.
  - rewrite IH. unfold warning_infos, apply_tag, is_critical_tag. simpl.
    destruct (fst t); simpl; [|rewrite <- app_assoc]; reflexivity.
Qed.

Lemma rule_state_buckets (az_info : pyval) (st st' : cstate) :
  rule_state az_info st = Ok st' ->
  critical_events st' = critical_events st /\ warning_events st' = warning_events st.
Proof.
  unfold rule_state. intros H. bind_inv H.
  destruct (negb (py_eq_str a "available")).
  - bind_inv H. injection H as <-. split; reflexivity.
  - injection H as <-. split; reflexivity.
Qed.

Lemma rule_messages_buckets (az_info : pyval) (st st' : cstate) :
  rule_messages az_info st = Ok st' ->
  critical_events st' = critical_events st /\ warning_events st' = warning_events st.
Proof.
  unfold rule_messages. intros H. bind_inv H. destruct (truthy a).
  - bind_inv H. bind_inv H. injection H as <-. split; reflexivity.
  - injection H as <-. split; reflexivity.
Qed.

Lemma perm_same_members {A : Type} (l1 l2 : list A) :
  Permutation l1 l2 -> forall x, In x l1 <-> In x l2.
Proof.
  intros P x. split; apply Permutation_in; [assumption | apply Permutation_sym; assumption].
Qed.

(** [C3] Order-independence of the event rule: past the existence gate,
    if the classifier returns a verdict on a list of events then it
    returns one on every permutation of that list, with the same severity
    and status and with [critical_events] and [warning_events] buckets
    that are permutations of (hence have the same members as) those of the
    first verdict.  Each bucket is made of the summaries of the events
    that [tag_event], a function of the single event, marks critical
    (resp. not critical), so every event lands in exactly one bucket: the
    two bucket sizes add up to the number of events. *)
Theorem event_order_independence :
  forall (az_info ex out1 : pyval) (events1 events2 : list pyval),
    py_get az_info "exists" PNone = Ok ex ->
    truthy ex = true ->
    Permutation events1 events2 ->
    analyze_health_status az_info (PList events1) = Ok out1 ->
    exists (out2 : pyval) (c1 w1 c2 w2 : list pyval) (s : severity)
           (tags1 : list (option string * pyval)),
      analyze_health_status az_info (PList events2) = Ok out2 /\
      py_getitem out1 "critical_events" = Ok (PList c1) /\
      py_getitem out1 "warning_events" = Ok (PList w1) /\
      py_getitem out2 "critical_events" = Ok (PList c2) /\
      py_getitem out2 "warning_events" = Ok (PList w2) /\
      Permutation c1 c2 /\ Permutation w1 w2 /\
      (forall x, In x c1 <-> In x c2) /\
      (forall x, In x w1 <-> In x w2) /\
      py_getitem out1 "severity" = Ok (PStr (severity_str s)) /\
      py_getitem out2 "severity" = Ok (PStr (severity_str s)) /\
      py_getitem out1 "status" = Ok (PStr (status_of_severity s)) /\
      py_getitem out2 "status" = Ok (PStr (status_of_severity s)) /\
      map_result tag_event events1 = Ok tags1 /\
      c1 = critical_infos tags1 /\
      w1 = warning_infos tags1 /\
      List.length c1 + List.length w1 = List.length events1.
Proof.
  intros az_info ex out1 events1 events2 Hget Hex P H.
  destruct (analyze_rules _ _ _ _ Hget Hex H) as (st1 & st2 & st3 & H1 & H2 & H3 & ->).
  unfold rule_events in H3. simpl in H3. rewrite for_each_classify in H3.
  apply bind_ok in H3. destruct H3 as (tags1 & T1 & H3). injection H3 as <-.
  destruct (map_result_perm tag_event _ _ P _ T1) as (tags2 & T2 & PT).
  destruct (rule_state_buckets _ _ _ H1) as (C1 & W1).
  destruct (rule_messages_buckets _ _ _ H2) as (C2 & W2).
  assert (Cnil : critical_events st2 = []) by (rewrite C2, C1; reflexivity).
  assert (Wnil : warning_events st2 = []) by (rewrite W2, W1; reflexivity).
  assert (PC : Permutation (critical_infos tags1) (critical_infos tags2)).
  { unfold critical_infos. apply Permutation_map, filter_perm, PT. }
  assert (PW : Permutation (warning_infos tags1) (warning_infos tags2)).
  { unfold warning_infos. apply Permutation_map, filter_perm, PT. }
  exists (verdict az_info (fold_left apply_tag tags2 st2)),
         (critical_infos tags1), (warning_infos tags1),
         (critical_infos tags2), (warning_infos tags2),
         (fold_left sev_step tags1 (sev st2)), tags1.
  split.
  { unfold analyze_health_status. rewrite Hget. simpl. rewrite Hex. simpl.
    rewrite H1. simpl. rewrite H2. simpl.
    unfold rule_events. simpl. rewrite for_each_classify, T2. reflexivity. }
  unfold verdict. cbn [py_getitem dict_lookup String.eqb Ascii.eqb Bool.eqb].
  rewrite !fold_apply_tag_critical, !fold_apply_tag_warning, !fold_apply_tag_sev.
  rewrite Cnil, Wnil. simpl app.
  rewrite <- (fold_sev_step_perm _ _ PT (sev st2)).
  repeat (split; [first [reflexivity | assumption | apply perm_same_members; assumption]|]).
  unfold critical_infos, warning_infos. rewrite !length_map.
  rewrite filter_length_split. apply (map_result_length _ _ _ T1).
Qed.

(** ** Further properties of the classifier *)

Lemma rule_state_dict (d : list (string * pyval)) (st : cstate) :
  rule_state (PDict d) st =
  Ok (mk_cstate (app (issues st) (state_issues d))
                (if py_eq_str (dict_get d "state" PNone) "available"
                 then sev st else Critical)
                (critical_events st) (warning_events st)).
Proof.
  unfold rule_state, state_issues, dict_get. simpl.
  destruct (py_eq_str _ "available"); simpl; [|reflexivity].
  rewrite app_nil_r. destruct st; reflexivity.
Qed.

Lemma rule_messages_dict (d : list (string * pyval)) (st st' : cstate) :
  rule_messages (PDict d) st = Ok st' ->
  issues st' = app (issues st) (message_issues d) /\
  sev st' = (if truthy (dict_get d "messages" PNone)
             then (if severity_eqb (sev st) Healthy then Warning else sev st)
             else sev st).
Proof.
  unfold rule_messages, message_issues, dict_get. simpl.
  destruct (dict_lookup d "messages") as [m|]; simpl.
  - destruct (truthy m); simpl.
    + destruct (py_iter m) as [msgs|e]; simpl; intros H; [|discriminate].
      injection H as <-. split; reflexivity.
    + intros H. injection H as <-. rewrite app_nil_r. split; reflexivity.
  - intros H. injection H as <-. rewrite app_nil_r. split; reflexivity.
Qed.

Lemma rule_messages_raises (d : list (string * pyval)) (st : cstate) (e : pyexn) :
  rule_messages (PDict d) st = Raise e -> e = TypeError.
Proof.
  unfold rule_messages. simpl.
  destruct (dict_lookup d "messages") as [m|]; simpl; [|discriminate].
  destruct (truthy m); simpl; [|discriminate].
  destruct m; simpl; intros H; try discriminate; injection H as <-; reflexivity.
Qed.

Lemma fold_apply_tag_issues (tags : list (option string * pyval)) (st : cstate) :
  issues (fold_left apply_tag tags st) = app (issues st) (event_issues tags).
Proof.
  revert st. induction tags as [|t tags IH]; intros st; simpl.
  - rewrite app_nil_r. reflexivity.
  - rewrite IH. unfold apply_tag. destruct (fst t); simpl.
    + rewrite <- app_assoc. reflexivity.
    + reflexivity.
Qed.

Lemma fold_sev_step_closed (tags : list (option string * pyval)) (s : severity) :
  fold_left sev_step tags s =
  if existsb is_critical_tag tags then Critical
  else match tags with
       | [] => s
       | _ :: _ => if severity_eqb s Healthy then Warning else s
       end.
Proof.
  revert s. induction tags as [|t tags IH]; intros s; simpl; [reflexivity|].
  rewrite IH. unfold sev_step, apply_tag, is_critical_tag at 2.
  destruct (fst t); simpl.
  - destruct (existsb is_critical_tag tags); [reflexivity|].
    destruct tags, s; reflexivity.
  - destruct (existsb is_critical_tag tags); [reflexivity|].
    destruct tags, s; reflexivity.
Qed.

Lemma iso_or_none_raises_attr (event : pyval) (k : string) (e : pyexn) :
  iso_or_none event k = Raise e -> e = AttributeError.
Proof.
  unfold iso_or_none.
  destruct event as [| | | | | |d]; simpl; intros H;
    try (injection H as <-; reflexivity).
  destruct (dict_lookup d k) as [t|]; simpl in H; [|discriminate].
  destruct (truthy t); simpl in H; [|discriminate].
  destruct t; simpl in H; try discriminate; injection H as <-; reflexivity.
Qed.

Lemma tag_event_raises (event : pyval) (e : pyexn) :
  tag_event event = Raise e -> e = AttributeError.
Proof.
  destruct event as [| | | | | |d]; simpl; intros H;
    try (injection H as <-; reflexivity).
  unfold tag_event, event_info, critical_issue in H. simpl in H.
  destruct (iso_or_none (PDict d) "startTime") as [v1|e1] eqn:E1; simpl in H;
    [|injection H as <-; exact (iso_or_none_raises_attr _ _ _ E1)].
  destruct (iso_or_none (PDict d) "endTime") as [v2|e2] eqn:E2; simpl in H;
    [|injection H as <-; exact (iso_or_none_raises_attr _ _ _ E2)].
  destruct (iso_or_none (PDict d) "lastUpdatedTime") as [v3|e3] eqn:E3; simpl in H;
    [|injection H as <-; exact (iso_or_none_raises_attr _ _ _ E3)].
  destruct (is_critical_category _); discriminate.
Qed.

Lemma map_result_tag_raises (events : list pyval) (e : pyexn) :
  map_result tag_event events = Raise e -> e = AttributeError.
Proof.
  induction events as [|event events IH]; simpl; intros H; [discriminate|].
  destruct (tag_event event) as [t|e'] eqn:E; simpl in H.
  - destruct (map_result tag_event events) as [ts|e'']; simpl in H; [discriminate|].
    injection H as <-. apply IH. reflexivity.
  - injection H as <-. exact (tag_event_raises _ _ E).
Qed.

Lemma map_result_tag_bad (events : list pyval) :
  forallb event_ok events = false ->
  exists e, map_result tag_event events = Raise e.
Proof.
  intros H. destruct (map_result tag_event events) as [tags|e] eqn:E; [|eauto].
  rewrite (map_result_tag_ok_inv _ _ E) in H. discriminate.
Qed.

Lemma rule_messages_ok (d : list (string * pyval)) (st : cstate) :
  az_info_ok (PDict d) = true -> exists st', rule_messages (PDict d) st = Ok st'.
Proof.
  unfold rule_messages. simpl.
  destruct (dict_lookup d "messages") as [m|]; simpl; [|eauto].
  destruct (truthy m) eqn:Ht; simpl; [|eauto].
  destruct m; simpl; intros H; try discriminate; eauto.
Qed.

(** Past the gate, on a dict and an iterable of events, a returned
    verdict is built from the state the message rule leaves and the tags
    of the events. *)
Lemma analyze_dict_closed (d : list (string * pyval)) (health_events out : pyval)
  (events : list pyval) :
  truthy (dict_get d "exists" PNone) = true ->
  py_iter health_events = Ok events ->
  analyze_health_status (PDict d) health_events = Ok out ->
  exists st1 st2 tags,
    rule_state (PDict d) initial_cstate = Ok st1 /\
    rule_messages (PDict d) st1 = Ok st2 /\
    map_result tag_event events = Ok tags /\
    out = verdict (PDict d) (fold_left apply_tag tags st2).
Proof.
  intros Hex Hit H.
  destruct (analyze_rules (PDict d) health_events _ out eq_refl Hex H)
    as (st1 & st2 & st3 & H1 & H2 & H3 & ->).
  unfold rule_events in H3. rewrite Hit in H3. simpl in H3.
  rewrite for_each_classify in H3.
  apply bind_ok in H3. destruct H3 as (tags & T & H3). injection H3 as <-.
  exists st1, st2, tags. repeat split; assumption.
Qed.

(** [X1] Issues are filed in discovery order: past the gate, the issues
    of a returned verdict are the lifecycle-state issue (if the state is
    not [available]), then one issue per operator message in message
    order, then one issue per critical event in event order. *)
Theorem issues_discovery_order :
  forall (d : list (string * pyval)) (health_events out : pyval) (events : list pyval),
    truthy (dict_get d "exists" PNone) = true ->
    py_iter health_events = Ok events ->
    analyze_health_status (PDict d) health_events = Ok out ->
    exists tags,
      map_result tag_event events = Ok tags /\
      py_getitem out "issues" =
        Ok (strs (app (state_issues d) (app (message_issues d) (event_issues tags)))) /\
      List.length (event_issues tags) = List.length (critical_infos tags).
Proof.
  intros d health_events out events Hex Hit H.
  destruct (analyze_dict_closed _ _ _ _ Hex Hit H) as (st1 & st2 & tags & H1 & H2 & T & ->).
  exists tags. split; [assumption|].
  rewrite rule_state_dict in H1. injection H1 as <-.
  destruct (rule_messages_dict _ _ _ H2) as (I2 & _). simpl in I2.
  split.
  - unfold verdict. cbn [py_getitem dict_lookup String.eqb Ascii.eqb Bool.eqb].
    rewrite fold_apply_tag_issues, I2, <- app_assoc. reflexivity.
  - unfold event_issues, critical_infos, is_critical_tag. rewrite length_map.
    clear. induction tags as [|t tags IH]; simpl; [reflexivity|].
    destruct (fst t); simpl; rewrite IH; reflexivity.
Qed.

(** [X2] The verdict's severity in closed form: past the gate it is
    [critical] exactly when the state is not [available] or some event is
    critical, and [healthy] exactly when the state is [available], the
    messages are falsy and there are no events at all; otherwise it is
    [warning]. *)
Theorem severity_characterisation :
  forall (d : list (string * pyval)) (health_events out : pyval) (events : list pyval),
    truthy (dict_get d "exists" PNone) = true ->
    py_iter health_events = Ok events ->
    analyze_health_status (PDict d) health_events = Ok out ->
    exists (s : severity) (tags : list (option string * pyval)),
      map_result tag_event events = Ok tags /\
      py_getitem out "severity" = Ok (PStr (severity_str s)) /\
      (s = Critical <->
       py_eq_str (dict_get d "state" PNone) "available" = false \/
       existsb is_critical_tag tags = true) /\
      (s = Healthy <->
       py_eq_str (dict_get d "state" PNone) "available" = true /\
       truthy (dict_get d "messages" PNone) = false /\
       events = []).
Proof.
  intros d health_events out events Hex Hit H.
  destruct (analyze_dict_closed _ _ _ _ Hex Hit H) as (st1 & st2 & tags & H1 & H2 & T & ->).
  exists (sev (fold_left apply_tag tags st2)), tags.
  split; [assumption|]. split; [reflexivity|].
  rewrite rule_state_dict in H1. injection H1 as <-.
  destruct (rule_messages_dict _ _ _ H2) as (_ & S2). simpl in S2.
  rewrite fold_apply_tag_sev, fold_sev_step_closed, S2.
  assert (L := map_result_length _ _ _ T).
  destruct tags as [|t tags]; destruct events as [|ev events];
    simpl in L; try discriminate L;
    [ simpl existsb | generalize (existsb is_critical_tag (t :: tags)); intros b ];
    destruct (py_eq_str (dict_get d "state" PNone) "available");
    destruct (truthy (dict_get d "messages" PNone));
    try destruct b; simpl; intuition congruence.
Qed.

(** [X3] An AZ whose state is not [available] is never reported better
    than unhealthy: past the gate, whatever the messages and the events,
    a returned verdict has status [unhealthy] and severity [critical], and
    its first issue is the one about the state. *)
Theorem unavailable_state_is_unhealthy :
  forall (d : list (string * pyval)) (health_events out : pyval),
    truthy (dict_get d "exists" PNone) = true ->
    py_eq_str (dict_get d "state" PNone) "available" = false ->
    analyze_health_status (PDict d) health_events = Ok out ->
    py_getitem out "status" = Ok (PStr "unhealthy") /\
    py_getitem out "severity" = Ok (PStr "critical") /\
    exists rest : list string,
      py_getitem out "issues" =
        Ok (strs (("AZ state is " ++ py_format (dict_get d "state" PNone)
                   ++ " (expected: available)") :: rest)).
Proof.
  intros d health_events out Hex Hst H.
  destruct (py_iter health_events) as [events|e] eqn:Hit.
  - destruct (analyze_dict_closed _ _ _ _ Hex Hit H)
      as (st1 & st2 & tags & H1 & H2 & T & ->).
    rewrite rule_state_dict in H1. injection H1 as <-.
    destruct (rule_messages_dict _ _ _ H2) as (I2 & S2). simpl in I2, S2.
    rewrite Hst in S2.
    assert (S3 : sev (fold_left apply_tag tags st2) = Critical).
    { rewrite fold_apply_tag_sev, fold_sev_step_closed, S2.
      destruct (truthy (dict_get d "messages" PNone)), (existsb is_critical_tag tags), tags;
        reflexivity. }
    unfold verdict. cbn [py_getitem dict_lookup String.eqb Ascii.eqb Bool.eqb].
    rewrite S3, fold_apply_tag_issues, I2.
    unfold state_issues. rewrite Hst. simpl.
    repeat split. eexists. reflexivity.
  - destruct (analyze_rules (PDict d) health_events _ out eq_refl Hex H)
      as (st1 & st2 & st3 & _ & _ & H3 & _).
    unfold rule_events in H3. rewrite Hit in H3. discriminate.
Qed.

(** [X4] The classifier raises nothing but [AttributeError] and
    [TypeError]; in particular the subscript [az_info['messages']] never
    raises [KeyError]. *)
Theorem classifier_exceptions :
  forall (az_info health_events : pyval) (e : pyexn),
    analyze_health_status az_info health_events = Raise e ->
    e = AttributeError \/ e = TypeError.
Proof.
  intros az_info health_events e H.
  destruct az_info as [| | | | | |d];
    try (simpl in H; injection H as <-; left; reflexivity).
  unfold analyze_health_status in H. simpl in H.
  destruct (negb (truthy _)); [discriminate|].
  rewrite rule_state_dict in H. simpl in H.
  match type of H with
  | context [rule_messages (PDict d) ?st] =>
      destruct (rule_messages (PDict d) st) as [st2|e2] eqn:H2; simpl in H
  end.
  - unfold rule_events in H.
    destruct (py_iter health_events) as [events|e3] eqn:Hit; simpl in H.
    + rewrite for_each_classify in H.
      destruct (map_result tag_event events) as [tags|e4] eqn:T; simpl in H;
        [discriminate|].
      injection H as <-. left. exact (map_result_tag_raises _ _ T).
    + injection H as <-. right.
      destruct health_events; simpl in Hit; try discriminate;
        injection Hit as <-; reflexivity.
  - injection H as <-. right. exact (rule_messages_raises _ _ _ H2).
Qed.

(** [X5] Past the gate the events argument must be iterable: [None], a
    bool, an int or a datetime in its place raises [TypeError] (while a
    falsy [exists] returns the gate's verdict for the same argument). *)
Theorem non_iterable_events_raise :
  forall (d : list (string * pyval)) (health_events : pyval),
    truthy (dict_get d "exists" PNone) = true ->
    is_iterable health_events = false ->
    analyze_health_status (PDict d) health_events = Raise TypeError.
Proof.
  intros d health_events Hex Hit.
  unfold analyze_health_status. simpl. unfold dict_get in Hex. rewrite Hex. simpl.
  rewrite rule_state_dict. simpl.
  match goal with
  | |- context [rule_messages (PDict d) ?st] =>
      destruct (rule_messages (PDict d) st) as [st2|e2] eqn:H2; simpl
  end.
  - destruct health_events; simpl in Hit; try discriminate; reflexivity.
  - rewrite (rule_messages_raises _ _ _ H2). reflexivity.
Qed.

(** [X6] One bad event fails the whole analysis: for a well-formed
    [az_info] past the gate, if any event of the list is not a dict or has
    a timestamp that is truthy and not a datetime, the classifier raises
    [AttributeError] and no verdict is produced for the other events. *)
Theorem bad_event_fails_analysis :
  forall (d : list (string * pyval)) (events : list pyval),
    az_info_ok (PDict d) = true ->
    truthy (dict_get d "exists" PNone) = true ->
    forallb event_ok events = false ->
    analyze_health_status (PDict d) (PList events) = Raise AttributeError.
Proof.
  intros d events Haz Hex Hbad.
  unfold analyze_health_status. simpl. unfold dict_get in Hex. rewrite Hex. simpl.
  rewrite rule_state_dict. simpl.
  match goal with
  | |- context [rule_messages (PDict d) ?st] =>
      destruct (rule_messages_ok d st Haz) as (st2 & ->); simpl
  end.
  unfold rule_events. simpl. rewrite for_each_classify.
  destruct (map_result_tag_bad _ Hbad) as (e & T). rewrite T. simpl.
  rewrite (map_result_tag_raises _ _ T). reflexivity.
Qed.

(** ** Properties of the handler *)

Section HandlerProperties.

Variable describe_availability_zones : string -> pyval -> result pyval.
Variable describe_events_pages : pyval -> pyval -> result (list pyval).
Variable boto3_client_ec2 : pyval -> result string.
Variable str_exn : pyexn -> string.
Variable now_isoformat : string.

(** [C9] Missing zone: when the request has no [availability_zone] entry,
    the handler answers with status code 400 and the body
    [{'error': 'Missing required parameter: availability_zone'}], which
    has an [error] string and no [message] entry, whatever AWS would have
    answered; the world is left as it was, so nothing was logged, no AWS
    request was made and none of [check_az_status], [get_az_health_events]
    and [analyze_health_status] was called. *)
Theorem missing_availability_zone :
  forall (d : list (string * pyval)) (context : pyval) (w : world),
    dict_lookup d "availability_zone" = None ->
    exists r : response,
      lambda_handler describe_availability_zones describe_events_pages
                     boto3_client_ec2 str_exn now_isoformat (PDict d) context w = (r, w) /\
      statusCode r = 400%Z /\
      body r = PDict [("error", PStr "Missing required parameter: availability_zone")] /\
      py_getitem (body r) "error" =
        Ok (PStr "Missing required parameter: availability_zone") /\
      py_getitem (body r) "message" = Raise KeyError /\
      ~ is_error_envelope (body r).
Proof.
  intros d context w H.
  exists missing_parameter_response.
  split.
  { unfold lambda_handler, handler_body, mbind, lift. simpl. rewrite H. reflexivity. }
  repeat (split; [reflexivity|]).
  intros (error & message & _ & Hm). discriminate Hm.
Qed.

(** *** The two lookups *)

Local Abbreviation check_az_status' :=
  (check_az_status describe_availability_zones str_exn).
Local Abbreviation get_az_health_events' :=
  (get_az_health_events describe_events_pages str_exn).
Local Abbreviation lambda_handler' :=
  (lambda_handler describe_availability_zones describe_events_pages
                  boto3_client_ec2 str_exn now_isoformat).
Local Abbreviation handler_body' :=
  (handler_body describe_availability_zones describe_events_pages
                boto3_client_ec2 str_exn now_isoformat).

Lemma check_az_status_not_found (zone response zones : pyval) (w : world) :
  describe_availability_zones (ec2_region w) zone = Ok response ->
  py_get response "AvailabilityZones" PNone = Ok zones ->
  truthy zones = false ->
  check_az_status' zone w =
    (Ok (PDict [("exists", PBool false);
                ("status", PStr "unknown");
                ("state", PStr "unknown");
                ("messages", PList [])]),
     record_call (DescribeAvailabilityZones (ec2_region w) zone) w).
Proof.
  intros Hd Hz Ht.
  unfold check_az_status, try_except, mbind, get_ec2_region, emit, lift. simpl.
  rewrite Hd. simpl. rewrite Hz. simpl. rewrite Ht. reflexivity.
Qed.

Lemma check_az_status_reraises (zone : pyval) (w : world) (e : pyexn) :
  describe_availability_zones (ec2_region w) zone = Raise e ->
  check_az_status' zone w =
    (Raise e,
     record_call
       (LogError ((if is_client_error e then "Error checking AZ status: "
                   else "Unexpected error checking AZ status: ") ++ str_exn e))
       (record_call (DescribeAvailabilityZones (ec2_region w) zone) w)).
Proof.
  intros Hd.
  unfold check_az_status, try_except, mbind, get_ec2_region, emit, lift, mraise. simpl.
  rewrite Hd. destruct e; reflexivity.
Qed.

(** [X7] Unknown zone: when EC2 answers without any zone (the
    [AvailabilityZones] entry is absent or empty), [check_az_status]
    returns the record [{exists: False, status: 'unknown', state:
    'unknown', messages: []}] instead of raising, and logs nothing. *)
Theorem check_az_status_unknown_zone :
  forall (zone response zones : pyval) (w : world),
    describe_availability_zones (ec2_region w) zone = Ok response ->
    py_get response "AvailabilityZones" PNone = Ok zones ->
    truthy zones = false ->
    check_az_status' zone w =
      (Ok (PDict [("exists", PBool false);
                  ("status", PStr "unknown");
                  ("state", PStr "unknown");
                  ("messages", PList [])]),
       record_call (DescribeAvailabilityZones (ec2_region w) zone) w).
Proof.
  intros zone response zones w. apply check_az_status_not_found.
Qed.

(** [X8] [check_az_status] never swallows a failure of EC2: the exception
    EC2 raises is re-raised unchanged, after exactly one error record in
    the log. *)
Theorem check_az_status_propagates :
  forall (zone : pyval) (w : world) (e : pyexn),
    describe_availability_zones (ec2_region w) zone = Raise e ->
    check_az_status' zone w =
      (Raise e,
       record_call
         (LogError ((if is_client_error e then "Error checking AZ status: "
                     else "Unexpected error checking AZ status: ") ++ str_exn e))
         (record_call (DescribeAvailabilityZones (ec2_region w) zone) w)).
Proof.
  intros zone w e. apply check_az_status_reraises.
Qed.

(** [X9] What [check_az_status] returns is always a dict with a boolean
    [exists] entry and with [state] and [messages] entries, so the
    classifier's reads of it cannot fail; [exists] is [False] exactly when
    EC2 listed no zone.  A successful lookup makes one EC2 request, logs
    nothing and leaves the client bound as it was. *)
Theorem check_az_status_shape :
  forall (zone v : pyval) (w w' : world),
    check_az_status' zone w = (Ok v, w') ->
    w' = record_call (DescribeAvailabilityZones (ec2_region w) zone) w /\
    exists (response zones : pyval) (d : list (string * pyval)),
      describe_availability_zones (ec2_region w) zone = Ok response /\
      py_get response "AvailabilityZones" PNone = Ok zones /\
      v = PDict d /\
      dict_lookup d "exists" = Some (PBool (truthy zones)) /\
      dict_lookup d "state" <> None /\
      dict_lookup d "messages" <> None.
Proof.
  intros zone v w w' H.
  unfold check_az_status, try_except, mbind, get_ec2_region, emit, lift, mraise in H.
  simpl in H.
  destruct (describe_availability_zones (ec2_region w) zone) as [response|e] eqn:Hd;
    simpl in H; [|destruct e; discriminate].
  destruct (py_get response "AvailabilityZones" PNone) as [zones|e] eqn:Hz;
    simpl in H; [|destruct e; discriminate].
  destruct (truthy zones) eqn:Ht; simpl in H.
  - destruct (py_getitem response "AvailabilityZones") as [zones'|e];
      simpl in H; [|destruct e; discriminate].
    destruct (py_first zones') as [az|e]; simpl in H; [|destruct e; discriminate].
    destruct az as [| | | | | |z]; simpl in H; try discriminate.
    injection H as <- <-. split; [reflexivity|].
    eexists response, zones, _. rewrite Ht.
    repeat split; try reflexivity; try assumption; simpl; discriminate.
  - injection H as <- <-. split; [reflexivity|].
    eexists response, zones, _. rewrite Ht.
    repeat split; try reflexivity; try assumption; simpl; discriminate.
Qed.

Lemma extend_pages_raises (pages : list pyval) (acc : list pyval) (e : pyexn) :
  for_each extend_with_page pages acc = Raise e -> is_client_error e = false.
Proof.
  revert acc. induction pages as [|page pages IH]; intros acc H; simpl in H;
    [discriminate|].
  destruct (extend_with_page acc page) as [acc'|e'] eqn:E; simpl in H.
  - exact (IH _ H).
  - injection H as <-. unfold extend_with_page in E.
    destruct page as [| | | | | |d]; simpl in E; try (injection E as <-; reflexivity).
    destruct (py_iter _) as [items|e''] eqn:I; simpl in E; [discriminate|].
    injection E as <-.
    destruct (match dict_lookup d "events" with Some x => x | None => PList [] end);
      simpl in I; try discriminate; injection I as <-; reflexivity.
Qed.

Lemma extend_pages_concat (pages : list pyval) (ps : list (list pyval)) :
  Forall2 page_has_events pages ps ->
  forall acc, for_each extend_with_page pages acc = Ok (app acc (List.concat ps)).
Proof.
  induction 1 as [|page evs pages ps (d & -> & Hev) _ IH]; intros acc; simpl.
  - rewrite app_nil_r. reflexivity.
  - unfold extend_with_page at 1. simpl. unfold dict_get in Hev. rewrite Hev. simpl.
    rewrite IH, <- app_assoc. reflexivity.
Qed.

Lemma extend_pages_broken (pages : list pyval) (page : pyval) :
  In page pages -> (forall d, page <> PDict d) ->
  forall acc, exists e, for_each extend_with_page pages acc = Raise e.
Proof.
  intros Hin Hnd. induction pages as [|x pages IH]; intros acc; [destruct Hin|].
  simpl. destruct (extend_with_page acc x) as [acc'|e] eqn:E; simpl; [|eauto].
  destruct Hin as [<-|Hin]; [|exact (IH Hin acc')].
  exfalso. unfold extend_with_page in E.
  destruct x; simpl in E; try discriminate. eapply Hnd. reflexivity.
Qed.

(** The health lookup, by the outcome of the paging. *)
Lemma get_az_health_events_run (region zone : pyval) (w : world) :
  get_az_health_events' region zone w =
  let w1 := record_call (DescribeEvents region zone) w in
  match (pages <- describe_events_pages region zone ;;
         for_each extend_with_page pages []) with
  | Ok events =>
      (Ok (PList events),
       record_call (LogInfo ("Found " ++ str_of_nat (List.length events)
                             ++ " health events for AZ " ++ py_format zone)) w1)
  | Raise e =>
      if is_client_error e then
        if String.eqb (error_code e) "SubscriptionRequiredException" then
          (Ok (PList []),
           record_call (LogWarning
             "AWS Health API requires AWS Business or Enterprise Support plan") w1)
        else
          (Raise e, record_call (LogError ("Error querying Health API: " ++ str_exn e)) w1)
      else
        (Ok (PList []),
         record_call (LogError ("Unexpected error querying Health API: " ++ str_exn e)) w1)
  end.
Proof.
  unfold get_az_health_events, try_except, mbind, emit, lift, mraise, mret, record_call.
  simpl.
  destruct (pages <- describe_events_pages region zone ;;
            for_each extend_with_page pages []) as [events|e]; simpl; [reflexivity|].
  destruct e; simpl; try reflexivity.
  destruct (String.eqb code "SubscriptionRequiredException"); reflexivity.
Qed.

Lemma paging_client_error (region zone : pyval) (code : string) :
  (pages <- describe_events_pages region zone ;; for_each extend_with_page pages [])
    = Raise (ClientError code) ->
  describe_events_pages region zone = Raise (ClientError code).
Proof.
  destruct (describe_events_pages region zone) as [pages|e]; simpl; intros H.
  - apply extend_pages_raises in H. discriminate.
  - assumption.
Qed.


(** [X11] Degrade, do not fail: when the Health API raises
    [SubscriptionRequiredException], or anything that is not a
    [ClientError], the lookup answers with the empty list and leaves one
    record in the log (a warning in the first case, an error in the
    second). *)
Theorem get_az_health_events_degrades :
  forall (region zone : pyval) (w : world) (e : pyexn),
    describe_events_pages region zone = Raise e ->
    (forall code, e = ClientError code -> code = "SubscriptionRequiredException") ->
    get_az_health_events' region zone w =
      (Ok (PList []),
       record_call
         (if is_client_error e
          then LogWarning "AWS Health API requires AWS Business or Enterprise Support plan"
          else LogError ("Unexpected error querying Health API: " ++ str_exn e))
         (record_call (DescribeEvents region zone) w)).
Proof.
  intros region zone w e Hd Hsub. rewrite get_az_health_events_run, Hd. simpl.
  destruct e as [code| | | |]; simpl; try reflexivity.
  rewrite (Hsub code eq_refl). reflexivity.
Qed.

(** [X12] The pages of the Health paginator are concatenated in order:
    when every page is a dict whose [events] entry is a list (or is
    absent), the lookup returns the events of all pages, first page first,
    and logs their number. *)
Theorem get_az_health_events_concatenates :
  forall (region zone : pyval) (w : world) (pages : list pyval) (ps : list (list pyval)),
    describe_events_pages region zone = Ok pages ->
    Forall2 page_has_events pages ps ->
    get_az_health_events' region zone w =
      (Ok (PList (List.concat ps)),
       record_call
         (LogInfo ("Found " ++ str_of_nat (List.length (List.concat ps))
                   ++ " health events for AZ " ++ py_format zone))
         (record_call (DescribeEvents region zone) w)).
Proof.
  intros region zone w pages ps Hd Hp. rewrite get_az_health_events_run, Hd. simpl.
  rewrite (extend_pages_concat _ _ Hp []). reflexivity.
Qed.

(** [X13] One page that is not a dict discards every event: the failure
    is caught inside the lookup, which then answers with the empty list,
    the events of the well-formed pages included. *)
Theorem malformed_page_drops_all_events :
  forall (region zone page : pyval) (w : world) (pages : list pyval),
    describe_events_pages region zone = Ok pages ->
    In page pages ->
    (forall d, page <> PDict d) ->
    exists e,
      for_each extend_with_page pages [] = Raise e /\
      get_az_health_events' region zone w =
        (Ok (PList []),
         record_call (LogError ("Unexpected error querying Health API: " ++ str_exn e))
                     (record_call (DescribeEvents region zone) w)).
Proof.
  intros region zone page w pages Hd Hin Hnd.
  destruct (extend_pages_broken _ _ Hin Hnd []) as (e & He).
  exists e. split; [assumption|].
  rewrite get_az_health_events_run, Hd. simpl. rewrite He.
  rewrite (extend_pages_raises _ _ _ He). reflexivity.
Qed.

(** [X14] Whatever the health lookup returns is a list, so the event rule
    of the classifier never meets a non-iterable argument; the lookup
    leaves the EC2 client bound as it was. *)
Theorem get_az_health_events_returns_list :
  forall (region zone v : pyval) (w w' : world),
    get_az_health_events' region zone w = (Ok v, w') ->
    (exists events, v = PList events) /\
    is_iterable v = true /\
    ec2_region w' = ec2_region w.
Proof.
  intros region zone v w w' H. rewrite get_az_health_events_run in H. cbv zeta in H.
  destruct (pages <- describe_events_pages region zone ;;
            for_each extend_with_page pages []) as [events|e0].
  - injection H as <- <-. repeat split. eauto.
  - destruct (is_client_error e0).
    + destruct (String.eqb _ _); [|discriminate].
      injection H as <- <-. repeat split. eauto.
    + injection H as <- <-. repeat split. eauto.
Qed.

(** *** The handler *)

Local Abbreviation rebind_client' := (rebind_client boto3_client_ec2).
Local Abbreviation assess' :=
  (assess describe_availability_zones describe_events_pages str_exn now_isoformat).

(** The [try] block, stage by stage. *)
Lemma handler_body_stages (event : pyval) (w : world) :
  handler_body' event w =
  match py_get event "availability_zone" PNone with
  | Raise e => (Raise e, w)
  | Ok availability_zone =>
      if negb (truthy availability_zone) then (Ok missing_parameter_response, w)
      else
        match resolve_region event availability_zone with
        | Raise e => (Raise e, w)
        | Ok region =>
            let w1 := record_call
                        (LogInfo ("Checking health for AZ: " ++ py_format availability_zone
                                  ++ " in region: " ++ py_format region)) w in
            match rebind_client' region w1 with
            | (Raise e, w2) => (Raise e, w2)
            | (Ok _, w2) => assess' availability_zone region w2
            end
        end
  end.
Proof.
  unfold handler_body, resolve_region, rebind_client, assess, mbind, lift, emit,
    get_ec2_region, record_call.
  destruct (py_get event "availability_zone" PNone) as [az|e]; simpl; [|reflexivity].
  destruct (negb (truthy az)); [reflexivity|].
  destruct (py_get event "region" PNone) as [region0|e]; simpl; [|reflexivity].
  destruct (if negb (truthy region0) then py_drop_last az else Ok region0)
    as [region|e]; simpl; [|reflexivity].
  destruct (negb (py_eq_str region (ec2_region w))); simpl; [|reflexivity].
  destruct (boto3_client_ec2 region) as [r|e]; reflexivity.
Qed.

Lemma assess_run (availability_zone region : pyval) (w : world) :
  assess' availability_zone region w =
  match check_az_status' availability_zone
          (record_call (CallCheckAzStatus availability_zone) w) with
  | (Raise e, w2) => (Raise e, w2)
  | (Ok az_info, w2) =>
      match get_az_health_events' region availability_zone
              (record_call (CallGetAzHealthEvents region availability_zone) w2) with
      | (Raise e, w4) => (Raise e, w4)
      | (Ok health_events, w4) =>
          let w5 := record_call (CallAnalyzeHealthStatus az_info health_events) w4 in
          match analyze_health_status az_info health_events with
          | Raise e => (Raise e, w5)
          | Ok health_analysis =>
              match py_getitem health_analysis "status" with
              | Raise e => (Raise e, w5)
              | Ok status =>
                  (Ok (mk_response 200
                         (PDict [("availability_zone", availability_zone);
                                 ("region", region);
                                 ("timestamp", PStr now_isoformat);
                                 ("health", health_analysis)])),
                   record_call (LogInfo ("Health check complete: " ++ py_format status)) w5)
              end
          end
      end
  end.
Proof.
  unfold assess, mbind at 1 2. unfold emit at 1. fold (record_call (CallCheckAzStatus availability_zone) w).
  destruct (check_az_status' availability_zone _) as [[az_info|e] w2]; [|reflexivity].
  unfold mbind at 1 2. unfold emit at 1.
  fold (record_call (CallGetAzHealthEvents region availability_zone) w2).
  destruct (get_az_health_events' region availability_zone _) as [[evs|e] w4];
    [|reflexivity].
  unfold mbind, emit, lift, mret, record_call. simpl.
  destruct (analyze_health_status az_info evs) as [health|e]; [|reflexivity].
  destruct (py_getitem health "status") as [status|e]; reflexivity.
Qed.

Lemma assess_ok (availability_zone region : pyval) (w w' : world) (r : response) :
  assess' availability_zone region w = (Ok r, w') ->
  exists az_info health_events health_analysis w2 w4,
    check_az_status' availability_zone
      (record_call (CallCheckAzStatus availability_zone) w) = (Ok az_info, w2) /\
    get_az_health_events' region availability_zone
      (record_call (CallGetAzHealthEvents region availability_zone) w2)
      = (Ok health_events, w4) /\
    analyze_health_status az_info health_events = Ok health_analysis /\
    r = mk_response 200
          (PDict [("availability_zone", availability_zone);
                  ("region", region);
                  ("timestamp", PStr now_isoformat);
                  ("health", health_analysis)]).
Proof.
  rewrite assess_run. intros H.
  destruct (check_az_status' availability_zone _) as [[az_info|e] w2] eqn:Hc;
    [|discriminate].
  destruct (get_az_health_events' region availability_zone _) as [[evs|e] w4] eqn:Hg;
    [|discriminate].
  cbv zeta in H.
  destruct (analyze_health_status az_info evs) as [health|e] eqn:Ha; [|discriminate].
  destruct (py_getitem health "status") as [status|e]; [|discriminate].
  injection H as <- _. exists az_info, evs, health, w2, w4.
  repeat split; try reflexivity; assumption.
Qed.

Lemma handler_body_ok (event : pyval) (w w' : world) (r : response) :
  handler_body' event w = (Ok r, w') ->
  (r = missing_parameter_response /\ w' = w) \/
  (exists availability_zone region w2,
      py_get event "availability_zone" PNone = Ok availability_zone /\
      truthy availability_zone = true /\
      resolve_region event availability_zone = Ok region /\
      assess' availability_zone region w2 = (Ok r, w')).
Proof.
  rewrite handler_body_stages. intros H.
  destruct (py_get event "availability_zone" PNone) as [az|e] eqn:Hz; [|discriminate].
  destruct (truthy az) eqn:Ht; simpl in H.
  - destruct (resolve_region event az) as [region|e] eqn:Hr; [|discriminate].
    cbv zeta in H.
    destruct (rebind_client' region _) as [[u|e] w2]; [|discriminate].
    right. exists az, region, w2. repeat split; assumption.
  - injection H as <- <-. left. split; reflexivity.
Qed.

Lemma verdict_status_in (az_info health_events out : pyval) :
  analyze_health_status az_info health_events = Ok out ->
  exists status,
    py_getitem out "status" = Ok (PStr status) /\ In status verdict_statuses.
Proof.
  intros H.
  destruct (py_get az_info "exists" PNone) as [ex|e] eqn:Hget.
  - destruct (truthy ex) eqn:Hex.
    + destruct (analyze_rules _ _ _ _ Hget Hex H) as (st1 & st2 & st3 & _ & _ & _ & ->).
      unfold verdict. cbn [py_getitem dict_lookup String.eqb Ascii.eqb Bool.eqb].
      eexists. split; [reflexivity|].
      unfold verdict_statuses. destruct (sev st3); simpl; auto.
    + rewrite (analyze_gate _ health_events _ Hget Hex) in H. injection H as <-.
      exists "error". split; [reflexivity|]. simpl. auto.
  - unfold analyze_health_status in H. rewrite Hget in H. discriminate.
Qed.

(** [X15] The handler always answers, and with one of three status codes:
    200, 400 or 500.  A 400 is the missing-parameter answer and leaves the
    world untouched; a 500 carries a body with the two strings [error] and
    [message], where [error] is ['AWS API error'] for a [ClientError] and
    ['Internal error'] for everything else. *)
Theorem handler_status_codes :
  forall (event context : pyval) (w : world),
    (statusCode (fst (lambda_handler' event context w)) = 200%Z \/
     statusCode (fst (lambda_handler' event context w)) = 400%Z \/
     statusCode (fst (lambda_handler' event context w)) = 500%Z) /\
    (statusCode (fst (lambda_handler' event context w)) = 400%Z ->
     lambda_handler' event context w = (missing_parameter_response, w)) /\
    (statusCode (fst (lambda_handler' event context w)) = 500%Z ->
     is_error_envelope (body (fst (lambda_handler' event context w))) /\
     exists e,
       body (fst (lambda_handler' event context w)) =
         PDict [("error", PStr (if is_client_error e then "AWS API error"
                                else "Internal error"));
                ("message", PStr (str_exn e))]).
Proof.
  intros event context w. unfold lambda_handler.
  destruct (handler_body' event w) as [[r|e] w'] eqn:H.
  - destruct (handler_body_ok _ _ _ _ H) as [(-> & ->) | (az & region & w2 & _ & _ & _ & Ha)].
    + simpl. split; [auto|]. split; [reflexivity|]. discriminate.
    + destruct (assess_ok _ _ _ _ _ Ha) as (? & ? & ? & ? & ? & _ & _ & _ & ->).
      simpl. split; [auto|]. split; discriminate.
  - destruct e; simpl; (split; [auto|]); (split; [discriminate|]); intros _;
      (split; [eexists _, _; split; reflexivity|]);
      [exists (ClientError code) | exists AttributeError | exists TypeError
       | exists KeyError | exists IndexError]; reflexivity.
Qed.

(** [X16] A 200 answer has exactly the four entries [availability_zone]
    (the request's), [region], [timestamp] and [health], and [health] is a
    verdict of the classifier, so its status is one of [healthy],
    [degraded], [unhealthy] and [error]. *)
Theorem ok_response_shape :
  forall (event context : pyval) (w w' : world) (r : response),
    lambda_handler' event context w = (r, w') ->
    statusCode r = 200%Z ->
    exists (availability_zone region health az_info health_events : pyval)
           (status : string),
      py_get event "availability_zone" PNone = Ok availability_zone /\
      resolve_region event availability_zone = Ok region /\
      body r = PDict [("availability_zone", availability_zone);
                      ("region", region);
                      ("timestamp", PStr now_isoformat);
                      ("health", health)] /\
      analyze_health_status az_info health_events = Ok health /\
      py_getitem health "status" = Ok (PStr status) /\
      In status verdict_statuses.
Proof.
  intros event context w w' r H H200. unfold lambda_handler in H.
  destruct (handler_body' event w) as [[r0|e] w0] eqn:Hb.
  - injection H as <- <-.
    destruct (handler_body_ok _ _ _ _ Hb)
      as [(-> & _) | (az & region & w2 & Hz & _ & Hr & Ha)]; [discriminate|].
    destruct (assess_ok _ _ _ _ _ Ha) as (az_info & evs & health & ? & ? & _ & _ & Hv & ->).
    destruct (verdict_status_in _ _ _ Hv) as (status & Hs & Hin).
    exists az, region, health, az_info, evs, status. repeat split; assumption.
  - destruct e; injection H as <- _; discriminate.
Qed.

Lemma string_drop_last_snoc (s : string) (c : ascii) :
  string_drop_last (s ++ String c EmptyString) = s.
Proof.
  induction s as [|a s IH]; simpl; [reflexivity|].
  rewrite IH. destruct s; reflexivity.
Qed.

(** [X17] Region inference: a truthy [region] in the request is used as
    it is; otherwise the region is the zone name without its last
    character, so a zone name [<region><letter>] yields [<region>].  A 200
    answer reports the region so obtained. *)
Theorem region_inference :
  forall (d : list (string * pyval)) (zone : string) (context : pyval)
         (w w' : world) (r : response),
    dict_lookup d "availability_zone" = Some (PStr zone) ->
    lambda_handler' (PDict d) context w = (r, w') ->
    statusCode r = 200%Z ->
    py_getitem (body r) "region" =
      Ok (if truthy (dict_get d "region" PNone) then dict_get d "region" PNone
          else PStr (string_drop_last zone)) /\
    (forall (region : string) (letter : ascii),
        zone = region ++ String letter EmptyString ->
        string_drop_last zone = region).
Proof.
  intros d zone context w w' r Hz H H200. split.
  - unfold lambda_handler in H.
    destruct (handler_body' (PDict d) w) as [[r0|e] w0] eqn:Hb.
    + injection H as <- <-.
      destruct (handler_body_ok _ _ _ _ Hb)
        as [(-> & _) | (az & region & w2 & Haz & _ & Hr & Ha)]; [discriminate|].
      destruct (assess_ok _ _ _ _ _ Ha) as (? & ? & ? & ? & ? & _ & _ & _ & ->).
      simpl in Haz. rewrite Hz in Haz. injection Haz as <-.
      unfold resolve_region in Hr. simpl in Hr. unfold dict_get.
      destruct (truthy _); simpl in Hr; injection Hr as <-; reflexivity.
    + destruct e; injection H as <- _; discriminate.
  - intros region letter ->. apply string_drop_last_snoc.
Qed.

Lemma rebind_client_run (region : pyval) (w : world) :
  rebind_client' region w =
  if py_eq_str region (ec2_region w) then (Ok tt, w)
  else match boto3_client_ec2 region with
       | Ok r => (Ok tt, mk_world r (app (calls w) [Boto3ClientEc2 region]))
       | Raise e => (Raise e, record_call (Boto3ClientEc2 region) w)
       end.
Proof.
  unfold rebind_client, mbind, get_ec2_region, emit, lift, set_ec2_region, mret,
    record_call. simpl.
  destruct (py_eq_str region (ec2_region w)); simpl; [reflexivity|].
  destruct (boto3_client_ec2 region); reflexivity.
Qed.

(** [X18] Asking about a zone EC2 does not know is not an error of the
    request: if the zone name is a non-empty string, the EC2 client for
    the resolved region can be created, EC2 lists no zone and the Health API raises no [ClientError]
    other than [SubscriptionRequiredException], the handler answers 200
    and the [health] entry is the existence gate's verdict (status
    [error]), whatever the Health API returned. *)
Theorem unknown_zone_is_200 :
  forall (d : list (string * pyval)) (zone : string) (context region : pyval)
         (w : world),
    dict_lookup d "availability_zone" = Some (PStr zone) ->
    zone <> "" ->
    resolve_region (PDict d) (PStr zone) = Ok region ->
    (exists r, boto3_client_ec2 region = Ok r) ->
    (forall client_region, exists response zones,
        describe_availability_zones client_region (PStr zone) = Ok response /\
        py_get response "AvailabilityZones" PNone = Ok zones /\
        truthy zones = false) ->
    (forall region code,
        describe_events_pages region (PStr zone) = Raise (ClientError code) ->
        code = "SubscriptionRequiredException") ->
    exists (r : response) (w' : world),
      lambda_handler' (PDict d) context w = (r, w') /\
      statusCode r = 200%Z /\
      py_getitem (body r) "availability_zone" = Ok (PStr zone) /\
      py_getitem (body r) "health" = Ok not_found_verdict.
Proof.
  intros d zone context region w Hz Hne Hres Hboto Hec2 Hhealth.
  unfold lambda_handler. rewrite handler_body_stages. simpl py_get. rewrite Hz.
  assert (Ht : truthy (PStr zone) = true).
  { simpl. destruct (String.eqb_spec zone ""); [contradiction | reflexivity]. }
  rewrite Ht. simpl negb. cbv iota. rewrite Hres. cbv zeta.
  assert (Hreb : exists w2, rebind_client' region
                   (record_call (LogInfo ("Checking health for AZ: " ++ py_format (PStr zone)
                                          ++ " in region: " ++ py_format region)) w)
                 = (Ok tt, w2)).
  { rewrite rebind_client_run. destruct (py_eq_str region _); [eauto|].
    destruct Hboto as (r & ->). eauto. }
  destruct Hreb as (w2 & ->).
  rewrite assess_run.
  destruct (Hec2 (ec2_region (record_call (CallCheckAzStatus (PStr zone)) w2)))
    as (response & zones & Hd & Hzs & Hf).
  rewrite (check_az_status_not_found _ _ _ _ Hd Hzs Hf).
  match goal with
  | |- context [get_az_health_events' region (PStr zone) ?w3] =>
      destruct (get_az_health_events' region (PStr zone) w3) as [[evs|e] w4] eqn:Hg
  end.
  - cbv zeta.
    pose proof (analyze_gate missing_az evs (PBool false) eq_refl eq_refl) as Hgate.
    unfold missing_az in Hgate. rewrite Hgate. simpl.
    eexists _, _. split; [reflexivity|]. repeat split.
  - exfalso. rewrite get_az_health_events_run in Hg. cbv zeta in Hg.
    destruct (pages <- describe_events_pages region (PStr zone) ;;
              for_each extend_with_page pages []) as [events|e0] eqn:P; [discriminate|].
    destruct e0 as [code| | | |]; simpl in Hg; try discriminate.
    rewrite (Hhealth _ _ (paging_client_error _ _ _ P)) in Hg. discriminate.
Qed.

(** [X19] A failure of the AZ lookup fails the request before anything
    else is looked up: if the zone name is a non-empty string, the EC2
    client for the resolved region can be created and EC2 raises [e], the handler answers 500,
    with error ['AWS API error'] when [e] is a [ClientError] and
    ['Internal error'] otherwise, and neither the Health API request, nor
    [get_az_health_events], nor the classifier is reached. *)
Theorem az_lookup_failure_is_500 :
  forall (d : list (string * pyval)) (zone : string) (context region : pyval)
         (w : world) (e : pyexn),
    dict_lookup d "availability_zone" = Some (PStr zone) ->
    zone <> "" ->
    resolve_region (PDict d) (PStr zone) = Ok region ->
    (exists r, boto3_client_ec2 region = Ok r) ->
    (forall client_region,
        describe_availability_zones client_region (PStr zone) = Raise e) ->
    exists (w' : world) (l : list call),
      lambda_handler' (PDict d) context w =
        (mk_response 500
           (PDict [("error", PStr (if is_client_error e then "AWS API error"
                                   else "Internal error"));
                   ("message", PStr (str_exn e))]),
         w') /\
      calls w' = app (calls w) l /\
      forallb (fun c => negb (after_az_lookup c)) l = true.
Proof.
  intros d zone context region w e Hz Hne Hres Hboto Hec2.
  unfold lambda_handler. rewrite handler_body_stages. simpl py_get. rewrite Hz.
  assert (Ht : truthy (PStr zone) = true).
  { simpl. destruct (String.eqb_spec zone ""); [contradiction | reflexivity]. }
  rewrite Ht. simpl negb. cbv iota. rewrite Hres. cbv zeta.
  rewrite rebind_client_run.
  destruct (py_eq_str region _).
  - rewrite assess_run, (check_az_status_reraises _ _ _ (Hec2 _)).
    destruct e; simpl;
      (eexists _, _; split; [reflexivity|]; split;
       [simpl; rewrite <- !app_assoc; reflexivity | reflexivity]).
  - destruct Hboto as (r & ->).
    rewrite assess_run, (check_az_status_reraises _ _ _ (Hec2 _)).
    destruct e; simpl;
      (eexists _, _; split; [reflexivity|]; split;
       [simpl; rewrite <- !app_assoc; reflexivity | reflexivity]).
Qed.

(** [X20] A request that is not a dict (for instance [None]) is answered
    with 500 / ['Internal error']: reading [availability_zone] raises
    [AttributeError] inside the [try], nothing is looked up and the only
    trace is one error record in the log. *)
Theorem non_dict_request_is_500 :
  forall (event context : pyval) (w : world),
    (forall d, event <> PDict d) ->
    lambda_handler' event context w =
      (mk_response 500
         (PDict [("error", PStr "Internal error");
                 ("message", PStr (str_exn AttributeError))]),
       record_call (LogError ("Unexpected error: " ++ str_exn AttributeError)) w).
Proof.
  intros event context w Hnd.
  unfold lambda_handler. rewrite handler_body_stages.
  destruct event; try reflexivity. exfalso. eapply Hnd. reflexivity.
Qed.

Lemma check_az_status_region (zone : pyval) (w : world) :
  ec2_region (snd (check_az_status' zone w)) = ec2_region w.
Proof.
  unfold check_az_status, try_except, mbind, get_ec2_region, emit, lift, mraise.
  cbv beta iota.
  match goal with
  | |- context [bind (describe_availability_zones ?r ?z) ?k] =>
      destruct (bind (describe_availability_zones r z) k) as [v|e]
  end; [reflexivity|].
  destruct e; reflexivity.
Qed.

Lemma get_az_health_events_region (region zone : pyval) (w : world) :
  ec2_region (snd (get_az_health_events' region zone w)) = ec2_region w.
Proof.
  rewrite get_az_health_events_run. cbv zeta.
  destruct (pages <- describe_events_pages region zone ;;
            for_each extend_with_page pages []) as [events|e]; [reflexivity|].
  destruct (is_client_error e); [|reflexivity].
  destruct (String.eqb _ _); reflexivity.
Qed.

Lemma assess_region (availability_zone region : pyval) (w : world) :
  ec2_region (snd (assess' availability_zone region w)) = ec2_region w.
Proof.
  rewrite assess_run.
  pose proof (check_az_status_region availability_zone
                (record_call (CallCheckAzStatus availability_zone) w)) as Hc.
  destruct (check_az_status' availability_zone _) as [[az_info|e] w2];
    simpl in Hc; [|exact Hc].
  pose proof (get_az_health_events_region region availability_zone
                (record_call (CallGetAzHealthEvents region availability_zone) w2)) as Hg.
  destruct (get_az_health_events' region availability_zone _) as [[evs|e] w4];
    simpl in Hg; [|simpl; congruence].
  cbv zeta.
  destruct (analyze_health_status az_info evs) as [health|e]; [|simpl; congruence].
  destruct (py_getitem health "status") as [status|e]; simpl; congruence.
Qed.

(** [X21] The global EC2 client is rebound only when the request's region
    differs from the client's, and the rebinding outlives the request: for
    a request with a zone name and a resolved region, the client ends up
    bound to its old region if the two regions are equal (or the new
    client could not be created), and to the new client's region
    otherwise, whether the lookups and the analysis then succeed or fail. *)
Theorem client_rebinding :
  forall (event context availability_zone region : pyval) (w : world),
    py_get event "availability_zone" PNone = Ok availability_zone ->
    truthy availability_zone = true ->
    resolve_region event availability_zone = Ok region ->
    ec2_region (snd (lambda_handler' event context w)) =
      (if py_eq_str region (ec2_region w) then ec2_region w
       else match boto3_client_ec2 region with
            | Ok r => r
            | Raise _ => ec2_region w
            end).
Proof.
  intros event context az region w Hz Ht Hr.
  unfold lambda_handler. rewrite handler_body_stages, Hz, Ht, Hr. simpl negb.
  cbv iota zeta. rewrite rebind_client_run.
  change (ec2_region (record_call ?c w)) with (ec2_region w).
  destruct (py_eq_str region (ec2_region w)).
  - match goal with
    | |- context [assess' az region ?w1] =>
        pose proof (assess_region az region w1) as Ha;
        destruct (assess' az region w1) as [[r|e] w']
    end; simpl in Ha; [exact Ha|].
    destruct e; exact Ha.
  - destruct (boto3_client_ec2 region) as [r|e].
    + match goal with
      | |- context [assess' az region ?w1] =>
          pose proof (assess_region az region w1) as Ha;
          destruct (assess' az region w1) as [[r0|e] w']
      end; simpl in Ha; [exact Ha|].
      destruct e; exact Ha.
    + destruct e; reflexivity.
Qed.

End HandlerProperties.

End Program.

(** ** The properties at the sample inputs *)

Lemma existence_gate_witness :
  analyze_health_status plain_str missing_az (PList [text_time_event; PInt 7]) =
    Ok (PDict [("status", PStr "error");
               ("severity", PStr "critical");
               ("message", PStr "Availability Zone does not exist");
               ("issues", PList [PStr "AZ not found"]);
               ("health_events", PList [])]).
Proof.
  apply (existence_gate plain_str missing_az (PList [text_time_event; PInt 7])
                        (PBool false)); reflexivity.
Defined.

Lemma severity_monotone_witness :
  exists st1 st2 st3,
    rule_state plain_str impaired_az initial_cstate = Ok st1 /\
    rule_messages plain_str impaired_az st1 = Ok st2 /\
    rule_events plain_str (PList [change_event; issue_event]) st2 = Ok st3 /\
    severity_le Healthy (sev st1) /\
    severity_le (sev st1) (sev st2) /\
    severity_le (sev st2) (sev st3).
Proof.
  destruct (severity_monotone plain_str impaired_az (PList [change_event; issue_event])
                              (PBool true) eq_refl eq_refl)
    as (_ & _ & _ & _ & _ & H).
  destruct (H _ eq_refl) as (st1 & st2 & st3 & H1 & H2 & H3 & _ & L1 & L2 & L3).
  exists st1, st2, st3. repeat split; assumption.
Defined.

Lemma event_order_independence_witness :
  exists out2 c1 w1 c2 w2,
    analyze_health_status plain_str healthy_az (PList [change_event; issue_event])
      = Ok out2 /\
    py_getitem out2 "critical_events" = Ok (PList c2) /\
    py_getitem out2 "warning_events" = Ok (PList w2) /\
    Permutation c1 c2 /\ Permutation w1 w2 /\
    List.length c1 + List.length w1 = 2.
Proof.
  destruct (event_order_independence plain_str healthy_az (PBool true)
              _ [issue_event; change_event] [change_event; issue_event]
              eq_refl eq_refl (perm_swap _ _ _) eq_refl)
    as (out2 & c1 & w1 & c2 & w2 & s & tags1 & H).
  exists out2, c1, w1, c2, w2. tauto.
Defined.

Lemma operator_message_rule_witness :
  analyze_health_status plain_str maintenance_az (PList []) =
    Ok (PDict [("status", PStr "degraded");
               ("severity", PStr "warning");
               ("message", PStr "AZ is degraded");
               ("issues", PList [PStr "AZ message: scheduled maintenance"]);
               ("critical_events", PList []);
               ("warning_events", PList []);
               ("az_info", maintenance_az)]).
Proof.
  apply (proj2 (proj2 (operator_message_rule plain_str))); reflexivity.
Defined.

Lemma critical_event_dominates_witness :
  exists code service : pyval,
    py_get issue_event "eventTypeCode" PNone = Ok code /\
    py_get issue_event "service" PNone = Ok service /\
    analyze_health_status plain_str healthy_az (PList [issue_event]) =
      Ok (PDict [("status", PStr "unhealthy");
                 ("severity", PStr "critical");
                 ("message", PStr "AZ is unhealthy");
                 ("issues",
                  PList [PStr ("Critical event: " ++ py_format plain_str code
                               ++ " - " ++ py_format plain_str service)]);
                 ("critical_events",
                  PList [PDict [("arn", PStr "arn:aws:health:us-east-1::event/EC2/issue/1");
                                ("service", PStr "EC2");
                                ("event_type_code", PStr "AWS_EC2_OPERATIONAL_ISSUE");
                                ("event_type_category", PStr "issue");
                                ("status", PStr "open");
                                ("start_time", PStr "2024-05-01T10:00:00+00:00");
                                ("end_time", PNone);
                                ("last_updated", PNone)]]);
                 ("warning_events", PList []);
                 ("az_info", healthy_az)]).
Proof.
  apply (critical_event_dominates plain_str); reflexivity.
Defined.

Lemma status_derivation_witness :
  exists s : severity,
    py_getitem (verdict healthy_az (mk_cstate [] Warning [] [PDict
        [("arn", PStr "arn:aws:health:us-east-1::event/EC2/change/2");
         ("service", PStr "EC2");
         ("event_type_code", PStr "AWS_EC2_MAINTENANCE_SCHEDULED");
         ("event_type_category", PStr "scheduledChange");
         ("status", PStr "upcoming");
         ("start_time", PNone); ("end_time", PNone); ("last_updated", PNone)]]))
      "severity" = Ok (PStr (severity_str s)) /\
    py_getitem (verdict healthy_az (mk_cstate [] Warning [] [PDict
        [("arn", PStr "arn:aws:health:us-east-1::event/EC2/change/2");
         ("service", PStr "EC2");
         ("event_type_code", PStr "AWS_EC2_MAINTENANCE_SCHEDULED");
         ("event_type_category", PStr "scheduledChange");
         ("status", PStr "upcoming");
         ("start_time", PNone); ("end_time", PNone); ("last_updated", PNone)]]))
      "status" = Ok (PStr (status_of_severity s)) /\
    status_of_severity s <> "error".
Proof.
  apply (status_derivation plain_str healthy_az (PList [change_event]) (PBool true));
    reflexivity.
Defined.

Lemma empty_input_baseline_witness :
  analyze_health_status plain_str healthy_az (PList []) =
    Ok (PDict [("status", PStr "healthy");
               ("severity", PStr "healthy");
               ("message", PStr "AZ is healthy");
               ("issues", PList []);
               ("critical_events", PList []);
               ("warning_events", PList []);
               ("az_info", healthy_az)]).
Proof.
  apply (empty_input_baseline plain_str); reflexivity.
Defined.

Lemma classifier_total_witness :
  exists out,
    analyze_health_status plain_str maintenance_az
      (PList [issue_event; bare_event; change_event]) = Ok out.
Proof.
  apply (proj1 (classifier_total plain_str)); reflexivity.
Defined.

Lemma missing_availability_zone_witness :
  exists r : response,
    lambda_handler plain_str sample_describe_availability_zones
                   sample_describe_events_pages sample_boto3_client_ec2
                   sample_str_exn "2024-05-01T12:00:00"
                   (PDict [("region", PStr "us-east-1")]) PNone sample_world
      = (r, sample_world) /\
    statusCode r = 400%Z /\
    body r = PDict [("error", PStr "Missing required parameter: availability_zone")].
Proof.
  destruct (missing_availability_zone plain_str sample_describe_availability_zones
              sample_describe_events_pages sample_boto3_client_ec2
              sample_str_exn "2024-05-01T12:00:00"
              [("region", PStr "us-east-1")] PNone sample_world eq_refl)
    as (r & H1 & H2 & H3 & _).
  exists r. repeat split; assumption.
Defined.

Lemma other_category_is_warning_witness :
  exists st',
    classify_event plain_str initial_cstate bare_event = Ok st' /\
    warning_events st' =
      [PDict [("arn", PStr "arn:aws:health:us-east-1::event/EC2/other/3");
              ("service", PStr "EC2");
              ("event_type_code", PNone);
              ("event_type_category", PStr "");
              ("status", PNone);
              ("start_time", PNone); ("end_time", PNone); ("last_updated", PNone)]] /\
    critical_events st' = [] /\
    issues st' = [] /\
    sev st' = Warning.
Proof.
  destruct (other_category_is_warning plain_str initial_cstate
              [("arn", PStr "arn:aws:health:us-east-1::event/EC2/other/3");
               ("service", PStr "EC2")] _ (or_introl eq_refl) eq_refl)
    as (st' & H & Hw & Hc & Hi & Hs & _).
  exists st'. repeat split; try assumption. apply Hs. reflexivity.
Defined.

(** ** Where the handler and the classifier depart from the envelope and
    from totality *)

(** A start time given as text makes the classifier raise. *)
Lemma text_timestamp_raises :
  az_info_ok healthy_az = true /\
  analyze_health_status plain_str healthy_az (PList [text_time_event])
    = Raise AttributeError /\
  ~ (exists out,
        analyze_health_status plain_str healthy_az (PList [text_time_event]) = Ok out).
Proof.
  split; [reflexivity|]. split; [reflexivity|].
  intros (out & H). discriminate H.
Qed.

(** The body of the missing-zone answer is not an error envelope: it has
    no [message]. *)
Lemma missing_zone_body_has_no_message :
  ~ is_error_envelope
      (body (fst (lambda_handler plain_str sample_describe_availability_zones
                    sample_describe_events_pages sample_boto3_client_ec2
                    sample_str_exn "2024-05-01T12:00:00"
                    (PDict []) PNone sample_world))).
Proof.
  intros (error & message & _ & H). discriminate H.
Qed.

(** ** The further properties at sample inputs *)

Lemma issues_discovery_order_witness :
  exists out tags,
    analyze_health_status plain_str (PDict impaired_entries)
      (PList [change_event; issue_event]) = Ok out /\
    map_result (tag_event plain_str) [change_event; issue_event] = Ok tags /\
    py_getitem out "issues" =
      Ok (strs (app (state_issues plain_str impaired_entries)
                    (app (message_issues plain_str impaired_entries)
                         (event_issues tags)))).
Proof.
  destruct (issues_discovery_order plain_str impaired_entries
              (PList [change_event; issue_event]) _ [change_event; issue_event]
              eq_refl eq_refl eq_refl) as (tags & T & I & _).
  eexists _, tags. split; [reflexivity|]. split; [exact T | exact I].
Defined.

Lemma severity_characterisation_witness :
  exists out s tags,
    analyze_health_status plain_str (PDict impaired_entries) (PList [change_event]) = Ok out /\
    map_result (tag_event plain_str) [change_event] = Ok tags /\
    py_getitem out "severity" = Ok (PStr (severity_str s)) /\
    (s = Critical <->
     py_eq_str (dict_get impaired_entries "state" PNone) "available" = false \/
     existsb is_critical_tag tags = true).
Proof.
  destruct (severity_characterisation plain_str impaired_entries
              (PList [change_event]) _ [change_event] eq_refl eq_refl eq_refl)
    as (s & tags & T & S & Hc & _).
  eexists _, s, tags. split; [reflexivity|]. repeat split; try assumption; apply Hc.
Defined.

Lemma unavailable_state_is_unhealthy_witness :
  exists out,
    analyze_health_status plain_str (PDict impaired_entries) (PList [change_event]) = Ok out /\
    py_getitem out "status" = Ok (PStr "unhealthy") /\
    py_getitem out "severity" = Ok (PStr "critical").
Proof.
  destruct (unavailable_state_is_unhealthy plain_str impaired_entries
              (PList [change_event]) _ eq_refl eq_refl eq_refl) as (H1 & H2 & _).
  eexists. split; [reflexivity|]. split; [exact H1 | exact H2].
Defined.

Lemma classifier_exceptions_witness :
  analyze_health_status plain_str healthy_az (PList [text_time_event])
    = Raise AttributeError /\
  (AttributeError = AttributeError \/ AttributeError = TypeError).
Proof.
  split; [reflexivity|].
  exact (classifier_exceptions plain_str healthy_az (PList [text_time_event])
           AttributeError eq_refl).
Defined.

Lemma non_iterable_events_raise_witness :
  analyze_health_status plain_str (PDict impaired_entries) PNone = Raise TypeError.
Proof.
  apply (non_iterable_events_raise plain_str impaired_entries PNone); reflexivity.
Defined.

Lemma bad_event_fails_analysis_witness :
  analyze_health_status plain_str (PDict impaired_entries)
    (PList [issue_event; text_time_event; change_event]) = Raise AttributeError.
Proof.
  apply (bad_event_fails_analysis plain_str impaired_entries); reflexivity.
Defined.

Lemma check_az_status_unknown_zone_witness :
  check_az_status unknown_zone_describe sample_str_exn (PStr "us-east-1z") sample_world =
    (Ok (PDict [("exists", PBool false);
                ("status", PStr "unknown");
                ("state", PStr "unknown");
                ("messages", PList [])]),
     record_call (DescribeAvailabilityZones "us-east-1" (PStr "us-east-1z")) sample_world).
Proof.
  apply (check_az_status_unknown_zone unknown_zone_describe sample_str_exn
           (PStr "us-east-1z") (PDict [("AvailabilityZones", PList [])]) (PList [])
           sample_world); reflexivity.
Defined.

Lemma check_az_status_propagates_witness :
  fst (check_az_status failing_describe sample_str_exn (PStr "us-east-1a") sample_world)
    = Raise (ClientError "UnauthorizedOperation").
Proof.
  rewrite (check_az_status_propagates failing_describe sample_str_exn
             (PStr "us-east-1a") sample_world _ eq_refl).
  reflexivity.
Defined.

Lemma check_az_status_shape_witness :
  exists (v : pyval) (d : list (string * pyval)),
    fst (check_az_status sample_describe_availability_zones sample_str_exn
           (PStr "us-east-1a") sample_world) = Ok v /\
    v = PDict d /\
    dict_lookup d "exists" = Some (PBool true).
Proof.
  destruct (check_az_status_shape sample_describe_availability_zones sample_str_exn
              (PStr "us-east-1a") _ sample_world _ eq_refl)
    as (_ & response & zones & d & Hd & Hz & Hv & Hex & _).
  injection Hd as <-. injection Hz as <-.
  eexists _, d. split; [reflexivity|]. split; [exact Hv | exact Hex].
Defined.


Lemma get_az_health_events_degrades_witness :
  fst (get_az_health_events plain_str gated_describe_events_pages sample_str_exn
         (PStr "us-east-1") (PStr "us-east-1a") sample_world) = Ok (PList []).
Proof.
  rewrite (get_az_health_events_degrades plain_str gated_describe_events_pages
             sample_str_exn (PStr "us-east-1") (PStr "us-east-1a") sample_world
             (ClientError "SubscriptionRequiredException") eq_refl).
  - reflexivity.
  - intros code H. injection H as <-. reflexivity.
Defined.

Lemma get_az_health_events_concatenates_witness :
  fst (get_az_health_events plain_str three_pages sample_str_exn
         (PStr "us-east-1") (PStr "us-east-1a") sample_world)
    = Ok (PList [issue_event; change_event; bare_event]).
Proof.
  rewrite (get_az_health_events_concatenates plain_str three_pages sample_str_exn
             (PStr "us-east-1") (PStr "us-east-1a") sample_world _
             [[issue_event]; []; [change_event; bare_event]] eq_refl).
  - reflexivity.
  - repeat constructor; eexists; split; reflexivity.
Defined.

Lemma malformed_page_drops_all_events_witness :
  fst (get_az_health_events plain_str broken_pages sample_str_exn
         (PStr "us-east-1") (PStr "us-east-1a") sample_world) = Ok (PList []).
Proof.
  destruct (malformed_page_drops_all_events plain_str broken_pages sample_str_exn
              (PStr "us-east-1") (PStr "us-east-1a") PNone sample_world _ eq_refl)
    as (e & _ & H).
  - right. left. reflexivity.
  - intros d H. discriminate H.
  - rewrite H. reflexivity.
Defined.

Lemma get_az_health_events_returns_list_witness :
  fst (get_az_health_events plain_str sample_describe_events_pages sample_str_exn
         (PStr "us-east-1") (PStr "us-east-1a") sample_world)
    = Ok (PList [issue_event]) /\
  is_iterable (PList [issue_event]) = true.
Proof.
  split; [reflexivity|].
  exact (proj1 (proj2 (get_az_health_events_returns_list plain_str
           sample_describe_events_pages sample_str_exn
           (PStr "us-east-1") (PStr "us-east-1a") _ sample_world _ eq_refl))).
Defined.

Lemma handler_status_codes_witness :
  is_error_envelope
    (body (fst (lambda_handler plain_str failing_describe sample_describe_events_pages
                  sample_boto3_client_ec2 sample_str_exn sample_now
                  (PDict zone_request_entries) PNone sample_world))).
Proof.
  exact (proj1 (proj2 (proj2 (handler_status_codes plain_str failing_describe
           sample_describe_events_pages sample_boto3_client_ec2 sample_str_exn
           sample_now (PDict zone_request_entries) PNone sample_world)) eq_refl)).
Defined.

Lemma ok_response_shape_witness :
  exists (health : pyval) (status : string),
    py_getitem
      (body (fst (lambda_handler plain_str sample_describe_availability_zones
                    sample_describe_events_pages sample_boto3_client_ec2
                    sample_str_exn sample_now
                    (PDict zone_request_entries) PNone sample_world)))
      "health" = Ok health /\
    py_getitem health "status" = Ok (PStr status) /\
    In status verdict_statuses.
Proof.
  destruct (ok_response_shape plain_str sample_describe_availability_zones
              sample_describe_events_pages sample_boto3_client_ec2
              sample_str_exn sample_now
              (PDict zone_request_entries) PNone sample_world _ _ eq_refl eq_refl)
    as (az & region & health & az_info & evs & status & _ & _ & Hb & _ & Hs & Hin).
  exists health, status. split; [|split; assumption].
  simpl in Hb. injection Hb as _ _ <-. reflexivity.
Defined.

Lemma region_inference_witness :
  py_getitem
    (body (fst (lambda_handler plain_str sample_describe_availability_zones
                  sample_describe_events_pages sample_boto3_client_ec2
                  sample_str_exn sample_now
                  (PDict zone_request_entries) PNone sample_world)))
    "region" = Ok (PStr "us-east-1").
Proof.
  exact (proj1 (region_inference plain_str sample_describe_availability_zones
           sample_describe_events_pages sample_boto3_client_ec2
           sample_str_exn sample_now zone_request_entries "us-east-1a" PNone
           sample_world _ _ eq_refl eq_refl eq_refl)).
Defined.

Lemma unknown_zone_is_200_witness :
  exists (r : response) (w' : world),
    lambda_handler plain_str unknown_zone_describe gated_describe_events_pages
      sample_boto3_client_ec2 sample_str_exn sample_now
      (PDict region_request_entries) PNone sample_world = (r, w') /\
    statusCode r = 200%Z /\
    py_getitem (body r) "availability_zone" = Ok (PStr "us-east-1a") /\
    py_getitem (body r) "health" = Ok not_found_verdict.
Proof.
  apply (unknown_zone_is_200 plain_str unknown_zone_describe gated_describe_events_pages
           sample_boto3_client_ec2 sample_str_exn sample_now
           region_request_entries "us-east-1a" PNone (PStr "eu-west-1") sample_world).
  - reflexivity.
  - discriminate.
  - reflexivity.
  - exists "eu-west-1"%string. reflexivity.
  - intros client_region. eexists _, _. repeat split; reflexivity.
  - intros region code H. injection H as <-. reflexivity.
Defined.

Lemma az_lookup_failure_is_500_witness :
  exists (w' : world) (l : list call),
    lambda_handler plain_str failing_describe sample_describe_events_pages
      sample_boto3_client_ec2 sample_str_exn sample_now
      (PDict region_request_entries) PNone sample_world =
      (mk_response 500
         (PDict [("error", PStr "AWS API error"); ("message", PStr "error")]), w') /\
    calls w' = app (calls sample_world) l /\
    forallb (fun c => negb (after_az_lookup c)) l = true.
Proof.
  apply (az_lookup_failure_is_500 plain_str failing_describe sample_describe_events_pages
           sample_boto3_client_ec2 sample_str_exn sample_now
           region_request_entries "us-east-1a" PNone (PStr "eu-west-1") sample_world
           (ClientError "UnauthorizedOperation")).
  - reflexivity.
  - discriminate.
  - reflexivity.
  - exists "eu-west-1"%string. reflexivity.
  - intros client_region. reflexivity.
Defined.

Lemma non_dict_request_is_500_witness :
  lambda_handler plain_str sample_describe_availability_zones
    sample_describe_events_pages sample_boto3_client_ec2 sample_str_exn sample_now
    PNone PNone sample_world =
    (mk_response 500
       (PDict [("error", PStr "Internal error"); ("message", PStr "error")]),
     record_call (LogError "Unexpected error: error") sample_world).
Proof.
  apply (non_dict_request_is_500 plain_str sample_describe_availability_zones
           sample_describe_events_pages sample_boto3_client_ec2 sample_str_exn
           sample_now PNone PNone sample_world).
  intros d H. discriminate H.
Defined.

Lemma client_rebinding_witness :
  ec2_region
    (snd (lambda_handler plain_str failing_describe sample_describe_events_pages
            sample_boto3_client_ec2 sample_str_exn sample_now
            (PDict region_request_entries) PNone sample_world)) = "eu-west-1".
Proof.
  exact (client_rebinding plain_str failing_describe sample_describe_events_pages
           sample_boto3_client_ec2 sample_str_exn sample_now
           (PDict region_request_entries) PNone (PStr "us-east-1a") (PStr "eu-west-1")
           sample_world eq_refl eq_refl eq_refl).
Defined.
